(** * IBM-EE backend: code execution engine, pre-execution validator and
      rate limiter

    A shallow embedding of
    - [backend/app/services/performance_service.py] (class [RateLimiter]),
    - [backend/app/services/compiler_service.py] (class [CodeExecutor]),
    - [backend/app/api/code.py] (handler [execute_code]),
    followed by the properties of these programs.

    Conventions.
    - Python [str] values are [string]s; a character stands for the code
      point of the same number (0..255).  [str.lower] and [str.strip] follow
      the Unicode tables on that range.
    - [time.time()] readings are fixed-point numbers: an integer count of
      clock ticks, [resolution] ticks per second.
    - The operating system (temporary files, child processes, clocks) is an
      explicit environment record; the functions thread a [world] that
      records the files on disk and the processes spawned.
    - Library calls follow CPython 3.11: [subprocess.Popen] checks the
      names of its keyword arguments before it starts anything. *)

From Stdlib Require Import ZArith Lia String Ascii Sorted.
From stdpp Require Import base option list gmap strings pretty.

Local Open Scope string_scope.
Local Open Scope Z_scope.

(** ** Python strings and dictionaries *)

Module Py.

(** [sub in s] *)
Fixpoint contains (sub s : string) : bool :=
  String.prefix sub s ||
  match s with
  | EmptyString => false
  | String _ rest => contains sub rest
  end.

(** [len(s)] *)
Definition len (s : string) : Z := Z.of_nat (String.length s).

(** [s[:n]]; a negative [n] counts from the end. *)
Definition slice_to (n : Z) (s : string) : string :=
  if 0 <=? n then String.substring 0 (Z.to_nat n) s
  else String.substring 0 (Z.to_nat (len s + n)) s.

(** [chr(c).lower()] on code points below 256: the upper-case letters
    are A-Z, U+00C0-U+00D6 and U+00D8-U+00DE, each 32 below its
    lower-case form. *)
Definition lower_ascii (c : ascii) : ascii :=
  let n := N_of_ascii c in
  if ((65 <=? n) && (n <=? 90) || (192 <=? n) && (n <=? 222) && negb (n =? 215))%N
  then ascii_of_N (n + 32) else c.

(** [s.lower()] *)
Fixpoint lower (s : string) : string :=
  match s with
  | EmptyString => EmptyString
  | String c rest => String (lower_ascii c) (lower rest)
  end.

(** [chr(c).isspace()] on code points below 256 *)
Definition isspace (c : ascii) : bool :=
  let n := N_of_ascii c in
  ((9 <=? n) && (n <=? 13) || (28 <=? n) && (n <=? 32) || (n =? 133) || (n =? 160))%N.

(** [s.lstrip()] *)
Fixpoint lstrip (s : string) : string :=
  match s with
  | EmptyString => EmptyString
  | String c rest => if isspace c then lstrip rest else s
  end.

(** [s.rstrip()] *)
Fixpoint rstrip (s : string) : string :=
  match s with
  | EmptyString => EmptyString
  | String c rest =>
      match rstrip rest with
      | EmptyString => if isspace c then EmptyString else String c EmptyString
      | r => String c r
      end
  end.

(** [s.strip()] *)
Definition strip (s : string) : string := rstrip (lstrip s).

(** [sep.join(parts)] *)
Fixpoint join (sep : string) (parts : list string) : string :=
  match parts with
  | [] => ""
  | [p] => p
  | p :: rest => p +:+ sep +:+ join sep rest
  end.

(** [s.replace(old, new)] for a non-empty [old]: occurrences are replaced
    from the left and do not overlap.  [skip] counts the characters of a
    replaced occurrence still to be dropped. *)
Fixpoint replace_from (skip : nat) (old new s : string) : string :=
  match s with
  | EmptyString => EmptyString
  | String c rest =>
      match skip with
      | S k => replace_from k old new rest
      | O =>
          if String.prefix old s
          then new +:+ replace_from (String.length old - 1) old new rest
          else String c (replace_from 0 old new rest)
      end
  end.

Definition replace (old new s : string) : string := replace_from 0 old new s.

(** [c * n] for a one-character string [c] *)
Fixpoint repeat_char (c : ascii) (n : nat) : string :=
  match n with
  | O => EmptyString
  | S k => String c (repeat_char c k)
  end.

(** [s] without its prefix [p], when it starts with [p]. *)
Fixpoint strip_prefix (p s : string) : option string :=
  match p, s with
  | EmptyString, _ => Some s
  | String a p', String b s' => if Ascii.eqb a b then strip_prefix p' s' else None
  | String _ _, EmptyString => None
  end.

(** The number of characters before the first line feed of [s]. *)
Fixpoint line_length (s : string) : option nat :=
  match s with
  | EmptyString => None
  | String c rest => if Ascii.eqb c "010" then Some 0%nat else S <$> line_length rest
  end.

(** [re.sub] of a fence followed by the rest of its line (the pattern is
    three backticks, a lazy run of characters other than line feeds, and a
    line feed): every such match is removed; a fence on a last line that has
    no line feed stays. *)
Fixpoint remove_fence_lines_from (skip : nat) (s : string) : string :=
  match s with
  | EmptyString => EmptyString
  | String c rest =>
      match skip with
      | S k => remove_fence_lines_from k rest
      | O =>
          match strip_prefix "```" s with
          | Some after =>
              match line_length after with
              | Some n => remove_fence_lines_from (3 + n) rest
              | None => String c (remove_fence_lines_from 0 rest)
              end
          | None => String c (remove_fence_lines_from 0 rest)
          end
      end
  end.

Definition remove_fence_lines (s : string) : string := remove_fence_lines_from 0 s.

(** The text of [s] before its first fence. *)
Fixpoint before_fence (s : string) : option string :=
  if String.prefix "```" s then Some EmptyString
  else match s with
       | EmptyString => None
       | String c rest => String c <$> before_fence rest
       end.

(** A match of the code-block pattern at the start of [s] (a fence, one of
    [langs] or nothing, a line feed, a lazy group of any characters, a
    fence): the text of its group. *)
Definition code_block_at (langs : list string) (s : string) : option string :=
  match strip_prefix "```" s with
  | None => None
  | Some after =>
      let headers := (map (λ l, l +:+ String "010" EmptyString) langs
                      ++ [String "010" EmptyString])%list in
      match omap (λ h, strip_prefix h after) headers with
      | body :: _ => before_fence body
      | [] => None
      end
  end.

(** The first element of [re.findall] for that pattern. *)
Fixpoint first_code_block (langs : list string) (s : string) : option string :=
  match code_block_at langs s with
  | Some block => Some block
  | None =>
      match s with
      | EmptyString => None
      | String _ rest => first_code_block langs rest
      end
  end.

(** A dictionary literal, in insertion order. *)
Definition dict (V : Type) : Type := list (string * V).

(** [d.get(k)] : [None] when the key is absent *)
Fixpoint get {V} (k : string) (d : dict V) : option V :=
  match d with
  | [] => None
  | (k', v) :: rest => if String.eqb k k' then Some v else get k rest
  end.

(** [d.keys()] *)
Definition keys {V} (d : dict V) : list string := map fst d.

(** [k in d] *)
Definition mem {V} (k : string) (d : dict V) : bool :=
  match get k d with Some _ => true | None => false end.

(** [d[k] = v]: the value of an old key is replaced in place, a new key
    goes to the end. *)
Fixpoint set {V} (k : string) (v : V) (d : dict V) : dict V :=
  match d with
  | [] => [(k, v)]
  | (k', v') :: rest =>
      if String.eqb k k' then (k, v) :: rest else (k', v') :: set k v rest
  end.

(** [{**d, **more}] *)
Definition update {V} (d more : dict V) : dict V :=
  foldl (λ acc entry, set entry.1 entry.2 acc) d more.

End Py.

(** ** performance_service.py: [RateLimiter] *)

Module RateLimiter.
Section Clock.

(** Clock ticks per second. *)
Variable resolution : Z.

(** [self.default_limits]; like [self.user_limits] it is set by
    [__init__] and never assigned again. *)
Definition default_limits : Py.dict Z :=
  [ ("requests_per_minute", 60);
    ("requests_per_hour", 1000);
    ("code_executions_per_minute", 10);
    ("ai_requests_per_minute", 20) ].

(** [self.user_limits] *)
Definition user_limits : Py.dict (Py.dict Z) :=
  [ ("admin",
      [ ("requests_per_minute", 120);
        ("requests_per_hour", 5000);
        ("code_executions_per_minute", 50);
        ("ai_requests_per_minute", 100) ]);
    ("demo",
      [ ("requests_per_minute", 30);
        ("requests_per_hour", 500);
        ("code_executions_per_minute", 5);
        ("ai_requests_per_minute", 10) ]) ].

(** The mutable part of a [RateLimiter]: [self.requests], a
    [defaultdict(deque)] from record keys to timestamps, oldest first. *)
Record t := { requests : gmap string (list Z) }.

(** [RateLimiter()] *)
Definition init : t := {| requests := ∅ |}.

(** The ceiling looked up by [is_allowed] and [get_remaining_requests]:
    [limits = self.user_limits.get(user_type, self.default_limits)],
    [limit = limits.get(limit_type, self.default_limits.get(limit_type, 60))]. *)
Definition limit_of (limit_type user_type : string) : Z :=
  let limits := default default_limits (Py.get user_type user_limits) in
  default (default 60 (Py.get limit_type default_limits)) (Py.get limit_type limits).

(** The window length chosen from the name of the limit type. *)
Definition window_of (limit_type : string) : Z :=
  if Py.contains "minute" limit_type then 60 * resolution
  else if Py.contains "hour" limit_type then 3600 * resolution
  else 60 * resolution.

(** [f"{key}:{limit_type}"] *)
Definition record_key (key limit_type : string) : string :=
  key +:+ ":" +:+ limit_type.

(** [self.requests[k]] read without creating the entry. *)
Definition record_of (self : t) (k : string) : list Z :=
  default [] (requests self !! k).

(** [while request_times and request_times[0] < cutoff: request_times.popleft()] *)
Fixpoint evict (cutoff : Z) (request_times : list Z) : list Z :=
  match request_times with
  | [] => []
  | oldest :: rest =>
      if oldest <? cutoff then evict cutoff rest else request_times
  end.

(** [is_allowed(key, limit_type, user_type)] called when the clock reads
    [now]; returns the verdict and the limiter afterwards. *)
Definition is_allowed (self : t) (now : Z) (key limit_type user_type : string)
  : bool * t :=
  let limit := limit_of limit_type user_type in
  let window := window_of limit_type in
  let k := record_key key limit_type in
  let request_times := evict (now - window) (record_of self k) in
  if Z.of_nat (length request_times) >=? limit
  then (false, {| requests := <[k := request_times]> (requests self) |})
  else (true, {| requests := <[k := (request_times ++ [now])%list]> (requests self) |}).

(** [get_remaining_requests(key, limit_type, user_type)] at clock reading
    [now]. *)
Definition get_remaining_requests (self : t) (now : Z)
    (key limit_type user_type : string) : Z * t :=
  let limit := limit_of limit_type user_type in
  let window := window_of limit_type in
  let k := record_key key limit_type in
  let request_times := evict (now - window) (record_of self k) in
  (Z.max 0 (limit - Z.of_nat (length request_times)),
   {| requests := <[k := request_times]> (requests self) |}).

(** Consecutive [is_allowed] calls for one key, one call per clock
    reading in [times]. *)
Fixpoint is_allowed_calls (self : t) (times : list Z)
    (key limit_type user_type : string) : list bool * t :=
  match times with
  | [] => ([], self)
  | now :: later =>
      let '(verdict, self1) := is_allowed self now key limit_type user_type in
      let '(verdicts, self2) := is_allowed_calls self1 later key limit_type user_type in
      (verdict :: verdicts, self2)
  end.

(** One pass of the loop of [cleanup_old_requests] at clock reading [now]:
    every record loses its timestamps older than one hour, then the keys
    whose record is empty are deleted.  The value is the number of deleted
    keys (the figure the pass logs) and the limiter afterwards. *)
Definition cleanup_pass (self : t) (now : Z) : nat * t :=
  let swept := evict (now - 3600 * resolution) <$> requests self in
  let keys_to_remove :=
    (filter (λ entry, entry.2 = []) (map_to_list swept)).*1 in
  (length keys_to_remove, {| requests := foldr delete swept keys_to_remove |}).

End Clock.
End RateLimiter.

(** ** The interpreter's exceptions and the operating system *)

Module Os.

(** Exception classes that occur in the programs below.  All derive from
    [Exception] except [KeyboardInterrupt] and [SystemExit]. *)
Inductive exc_type :=
| TimeoutExpired
| TypeError
| KeyError
| OSError
| HTTPException (status_code : Z)
| KeyboardInterrupt
| SystemExit.

(** An exception object; [message] is [str(e)] (for an [HTTPException],
    the status code, a colon and the detail). *)
Record exn := { exc : exc_type; message : string }.

(** [isinstance(e, Exception)] *)
Definition is_Exception (e : exn) : bool :=
  match exc e with
  | KeyboardInterrupt | SystemExit => false
  | _ => true
  end.

(** [isinstance(e, subprocess.TimeoutExpired)] *)
Definition is_TimeoutExpired (e : exn) : bool :=
  match exc e with TimeoutExpired => true | _ => false end.

Inductive node := Dir | File (content : string).

(** What the programs can observe and change outside themselves: the
    files on disk and the child processes started so far, oldest first. *)
Record world := {
  files : gmap string node;
  spawned : list (list string)
}.

Inductive result (A : Type) :=
| Return (a : A)
| Raise (e : exn).
Arguments Return {A} a.
Arguments Raise {A} e.

(** Computations that read and change the world and may raise. *)
Definition M (A : Type) : Type := world → result A * world.

Definition ret {A} (a : A) : M A := λ w, (Return a, w).
Definition raise {A} (e : exn) : M A := λ w, (Raise e, w).
Definition bind {A B} (m : M A) (k : A → M B) : M B :=
  λ w, match m w with
       | (Return a, w') => k a w'
       | (Raise e, w') => (Raise e, w')
       end.

(** [try: body / except ...: handler]; the handler decides which
    exceptions it takes. *)
Definition try_except {A} (body : M A) (handler : exn → M A) : M A :=
  λ w, match body w with
       | (Return a, w') => (Return a, w')
       | (Raise e, w') => handler e w'
       end.

(** The outcome of waiting for a child with a timeout. *)
Inductive child_outcome :=
| Exited (stdout stderr : string) (returncode : Z)
| Hung
| Failed (e : exn).

(** The behaviour of the machine during one request. *)
Record Env := {
  (** [os.name] *)
  os_name : string;
  (** [time.time()] on entry and when the result is built, in
      milliseconds *)
  start_time : Z;
  end_time : Z;
  (** the directory [tempfile.TemporaryDirectory()] creates, or the
      exception it raises *)
  mkdtemp : world → result string;
  (** [tempfile.gettempdir()] *)
  gettempdir : string;
  (** the file name [tempfile.NamedTemporaryFile(suffix, dir)] picks, or
      the exception it raises *)
  mkstemp : world → string → string → result string;
  (** [open(path, 'w')] followed by [write(text)]: the exception raised,
      if any, and whether the file was created before it *)
  write_error : world → string → string → option (exn * bool);
  (** process creation failing, e.g. the executable does not exist *)
  spawn_error : world → list string → option exn;
  (** what a child started with this argument vector and input does
      within the timeout, and the files it leaves behind *)
  child : world → list string → option string → option Z → child_outcome;
  child_files : world → list string → option string → gmap string node;
  (** [os.makedirs(path, exist_ok=True)] failing *)
  mkdir_error : world → string → option exn;
  (** [psutil.virtual_memory().percent] and [psutil.cpu_percent()], on entry
      and when the response is built, in thousandths *)
  memory_before : Z;
  memory_after : Z;
  cpu_before : Z;
  cpu_after : Z;
  (** [uuid.uuid4().hex[:8]] *)
  uuid_hex8 : string
}.

Definition add_file (path : string) (n : node) (w : world) : world :=
  {| files := <[path := n]> (files w); spawned := spawned w |}.

(** [path] is [dir] or lies below it. *)
Definition under (dir path : string) : bool :=
  String.eqb path dir || String.prefix (dir +:+ "/") path.

(** [shutil.rmtree(dir)] *)
Definition rmtree (dir : string) (w : world) : world :=
  {| files := filter (λ entry, ¬ under dir entry.1) (files w);
     spawned := spawned w |}.

(** [with tempfile.TemporaryDirectory() as temp_dir: body]; the
    directory is removed however the body ends. *)
Definition TemporaryDirectory {A} (env : Env) (body : string → M A) : M A :=
  λ w, match mkdtemp env w with
       | Raise e => (Raise e, w)
       | Return temp_dir =>
           let '(r, w') := body temp_dir (add_file temp_dir Dir w) in
           (r, rmtree temp_dir w')
       end.

(** [with open(path, 'w') as f: f.write(text)] *)
Definition write_text (env : Env) (path text : string) : M unit :=
  λ w, match write_error env w path text with
       | Some (e, created) =>
           (Raise e, if created then add_file path (File "") w else w)
       | None => (Return (), add_file path (File text) w)
       end.

(** [with tempfile.NamedTemporaryFile(mode='w', suffix, delete=False, dir)
    as f: f.write(text)]; the value is [f.name]. *)
Definition NamedTemporaryFile (env : Env) (suffix dir text : string) : M string :=
  λ w, match mkstemp env w suffix dir with
       | Raise e => (Raise e, w)
       | Return path =>
           let w' := add_file path (File "") w in
           match write_error env w' path text with
           | Some (e, _) => (Raise e, w')
           | None => (Return path, add_file path (File text) w')
           end
       end.

(** [os.makedirs(path, exist_ok=True)] *)
Definition makedirs (env : Env) (path : string) : M unit :=
  λ w, match mkdir_error env w path with
       | Some e => (Raise e, w)
       | None => (Return (), add_file path Dir w)
       end.

(** The keyword parameters of [subprocess.Popen.__init__] (CPython 3.11). *)
Definition Popen_parameters : list string :=
  [ "args"; "bufsize"; "executable"; "stdin"; "stdout"; "stderr";
    "preexec_fn"; "close_fds"; "shell"; "cwd"; "env"; "universal_newlines";
    "startupinfo"; "creationflags"; "restore_signals"; "start_new_session";
    "pass_fds"; "user"; "group"; "extra_groups"; "encoding"; "errors";
    "text"; "umask"; "pipesize"; "process_group" ].

(** The exception [Popen] raises for the keyword [k]. *)
Definition unexpected_keyword (k : string) : exn :=
  {| exc := TypeError;
     message := "Popen.__init__() got an unexpected keyword argument '"
                +:+ k +:+ "'" |}.

(** The world once a child has been started with [command]. *)
Definition started (command : list string) (w : world) : world :=
  {| files := files w; spawned := (spawned w ++ [command])%list |}.

(** A started child: its argument vector and working directory. *)
Record process := { args : list string; cwd : string }.

(** [subprocess.Popen(command, **kwargs)], [kwargs] being the names of
    the keyword arguments at the call site.  A name that is not a
    parameter makes the call raise [TypeError] before anything starts. *)
Definition Popen (env : Env) (command : list string) (kwargs : list string)
    (cwd : string) : M process :=
  match List.find (λ k, negb (existsb (String.eqb k) Popen_parameters)) kwargs with
  | Some k => raise (unexpected_keyword k)
  | None =>
      λ w, match spawn_error env w command with
           | Some e => (Raise e, w)
           | None => (Return {| args := command; cwd := cwd |}, started command w)
           end
  end.

(** [process.communicate(input, timeout)] with [process.returncode]
    read afterwards. *)
Definition communicate (env : Env) (p : process) (input : option string)
    (timeout : option Z) : M (string * string * Z) :=
  λ w,
    let w' := {| files := child_files env w (args p) input ∪ files w;
                 spawned := spawned w |} in
    match child env w (args p) input timeout with
    | Exited stdout stderr returncode => (Return (stdout, stderr, returncode), w')
    | Hung => (Raise {| exc := TimeoutExpired; message := "" |}, w')
    | Failed e => (Raise e, w')
    end.

(** [Path(dir) / name], for a normalised [dir]. *)
Definition path_join (dir name : string) : string := dir +:+ "/" +:+ name.

(** Position of the last occurrence of [c] in [s]. *)
Fixpoint rfind (c : ascii) (s : string) : option nat :=
  match s with
  | EmptyString => None
  | String a rest =>
      match rfind c rest with
      | Some i => Some (S i)
      | None => if Ascii.eqb a c then Some 0%nat else None
      end
  end.

(** [Path(path).name] *)
Definition path_name (path : string) : string :=
  match rfind "/" path with
  | Some i => String.substring (S i) (String.length path - S i) path
  | None => path
  end.

(** [PurePath.stem] of a file name: the name without its last suffix; a
    leading or a trailing dot does not start a suffix. *)
Definition name_stem (name : string) : string :=
  match rfind "." name with
  | Some i =>
      if ((0 <? i) && (i <? String.length name - 1))%nat
      then String.substring 0 i name else name
  | None => name
  end.

(** [Path(path).stem] *)
Definition path_stem (path : string) : string := name_stem (path_name path).

(** [Path(path).with_suffix(suffix)] *)
Definition with_suffix (suffix path : string) : string :=
  let name := path_name path in
  String.substring 0 (String.length path - String.length name) path
    +:+ name_stem name +:+ suffix.

(** [m] never removes [path] from the disk. *)
Definition keeps {A} (path : string) (m : M A) : Prop :=
  ∀ w, is_Some (files w !! path) → is_Some (files (m w).2 !! path).

(** Every exception the machine raises derives from [Exception]. *)
Definition raises_only_Exception (env : Env) : Prop :=
  (∀ w e, mkdtemp env w = Raise e → is_Exception e = true) ∧
  (∀ w suffix dir e, mkstemp env w suffix dir = Raise e → is_Exception e = true) ∧
  (∀ w path text e created,
     write_error env w path text = Some (e, created) → is_Exception e = true) ∧
  (∀ w command e, spawn_error env w command = Some e → is_Exception e = true) ∧
  (∀ w command input timeout e,
     child env w command input timeout = Failed e → is_Exception e = true) ∧
  (∀ w path e, mkdir_error env w path = Some e → is_Exception e = true).

End Os.

Notation "x <- m ;; k" := (Os.bind m (λ x, k))
  (at level 100, m at next level, right associativity).

(** Values stored in result dictionaries.  [VMillis n] is the float
    [n / 1000], the form of a duration rounded to three decimals. *)
Inductive value :=
| VNone
| VBool (b : bool)
| VInt (n : Z)
| VMillis (n : Z)
| VStr (s : string).

(** ** compiler_service.py: [CodeExecutor] *)

Module CodeExecutor.
Import Os.

(** An entry of [self.supported_languages]. *)
Record lang_config := { extension : string; command : list string }.

(** The attributes of a [CodeExecutor]. *)
Record t := {
  supported_languages : Py.dict lang_config;
  max_execution_time : Z;
  max_memory : Z;
  max_output_size : Z
}.

(** [CodeExecutor()], the module's [code_executor]. *)
Definition code_executor : t := {|
  supported_languages :=
    [ ("python", {| extension := ".py"; command := ["python"] |});
      ("javascript", {| extension := ".js"; command := ["node"] |});
      ("typescript", {| extension := ".ts"; command := ["npx"; "ts-node"] |});
      ("java", {| extension := ".java";
                  command := ["javac"; "{file}"; "&&"; "java"] |});
      ("cpp", {| extension := ".cpp";
                 command := ["g++"; "-o"; "{output}"; "{file}"; "&&"; "{output}"] |});
      ("c", {| extension := ".c";
               command := ["gcc"; "-o"; "{output}"; "{file}"; "&&"; "{output}"] |});
      ("go", {| extension := ".go"; command := ["go"; "run"] |});
      ("rust", {| extension := ".rs";
                  command := ["rustc"; "{file}"; "&&"; "{output}"] |});
      ("php", {| extension := ".php"; command := ["php"] |});
      ("ruby", {| extension := ".rb"; command := ["ruby"] |});
      ("shell", {| extension := ".sh"; command := ["bash"] |});
      ("powershell", {| extension := ".ps1"; command := ["powershell"; "-File"] |}) ];
  max_execution_time := 10;
  max_memory := 100 * 1024 * 1024;
  max_output_size := 1024 * 1024
|}.

(** The dictionary [_execute_with_limits] returns; every return site
    fills the same five keys. *)
Record limits_result := {
  success : bool;
  stdout : string;
  stderr : string;
  return_code : Z;
  memory_usage : Z
}.

(** [self.supported_languages[language]] *)
Definition lookup_language (self : t) (language : string) : result lang_config :=
  match Py.get language (supported_languages self) with
  | Some cfg => Return cfg
  | None => Raise {| exc := KeyError; message := "'" +:+ language +:+ "'" |}
  end.

(** [_prepare_command(language, file_path, temp_dir)] *)
Definition _prepare_command (self : t) (env : Env)
    (language file_path temp_dir : string) : result (list string) :=
  match lookup_language self language with
  | Raise e => Raise e
  | Return lang_config =>
      let command := command lang_config in
      if String.eqb language "java" then
        let class_name := path_stem file_path in
        Return ["java"; "-cp"; temp_dir; class_name]
      else if existsb (String.eqb language) ["cpp"; "c"; "rust"] then
        let output_file := path_join temp_dir "output" in
        let output_file :=
          if String.eqb (os_name env) "nt"
          then with_suffix ".exe" output_file else output_file in
        Return (map (λ cmd, Py.replace "{output}" output_file
                              (Py.replace "{file}" file_path cmd)) command)
      else
        Return (command ++ [file_path])%list
  end.

Definition newline : string := String "010" EmptyString.

(** Lines 125-138 of [_execute_with_limits]: the result built once
    [communicate] has returned [stdout] and [stderr] and the child has
    ended with [returncode]. *)
Definition completed (self : t) (stdout stderr : string) (returncode : Z)
  : limits_result :=
  let stdout :=
    if Py.len stdout >? max_output_size self
    then Py.slice_to (max_output_size self) stdout
         +:+ newline +:+ "[Output truncated - too large]"
    else stdout in
  let stderr :=
    if Py.len stderr >? max_output_size self
    then Py.slice_to (max_output_size self) stderr
         +:+ newline +:+ "[Error output truncated - too large]"
    else stderr in
  {| success := returncode =? 0;
     stdout := stdout;
     stderr := if negb (returncode =? 0) then stderr else "";
     return_code := returncode;
     memory_usage := 0 |}.

(** The result of the [except subprocess.TimeoutExpired] handler of
    [_execute_with_limits]. *)
Definition timed_out (self : t) : limits_result :=
  {| success := false;
     stdout := "";
     stderr := "Execution timed out after "
               +:+ pretty (max_execution_time self) +:+ " seconds";
     return_code := -1;
     memory_usage := 0 |}.

(** The result of its [except Exception] handler. *)
Definition execution_failed (e : exn) : limits_result :=
  {| success := false;
     stdout := "";
     stderr := "Execution failed: " +:+ message e;
     return_code := -1;
     memory_usage := 0 |}.

(** [_execute_with_limits(command, stdin, cwd)] *)
Definition _execute_with_limits (self : t) (env : Env)
    (command : list string) (stdin : option string) (cwd : string)
  : M limits_result :=
  try_except
    (process <- Popen env command
                  ["stdin"; "stdout"; "stderr"; "cwd"; "text"; "timeout"; "shell"]
                  cwd ;;
     streams <- communicate env process stdin (Some (max_execution_time self)) ;;
     let '(stdout, stderr, returncode) := streams in
     ret (completed self stdout stderr returncode))
    (λ e,
       if is_TimeoutExpired e then ret (timed_out self)
       else if is_Exception e then ret (execution_failed e)
       else raise e).

(** The dictionary [run_code] returns for a language it does not know;
    [language] is already in lower case. *)
Definition unsupported (self : t) (language : string) : Py.dict value :=
  [ ("success", VBool false);
    ("output", VStr "");
    ("error", VStr ("Language '" +:+ language
                    +:+ "' is not supported. Supported languages: "
                    +:+ Py.join ", " (Py.keys (supported_languages self))));
    ("execution_time", VInt 0);
    ("memory_usage", VInt 0) ].

(** The dictionary [run_code] builds from the result of
    [_execute_with_limits]. *)
Definition executed (env : Env) (language : string) (result : limits_result)
  : Py.dict value :=
  let execution_time := end_time env - start_time env in
  [ ("success", VBool (success result));
    ("output", VStr (stdout result));
    ("error", VStr (stderr result));
    ("execution_time", VMillis execution_time);
    ("memory_usage", VInt (memory_usage result));
    ("language", VStr language) ].

(** The dictionary of [run_code]'s exception handler. *)
Definition execution_error (env : Env) (language : string) (e : exn)
  : Py.dict value :=
  let execution_time := end_time env - start_time env in
  [ ("success", VBool false);
    ("output", VStr "");
    ("error", VStr ("Execution error: " +:+ message e));
    ("execution_time", VMillis execution_time);
    ("memory_usage", VInt 0);
    ("language", VStr language) ].

(** [run_code(language, code, stdin)] *)
Definition run_code (self : t) (env : Env) (language code : string)
    (stdin : option string) : M (Py.dict value) :=
  let language := Py.lower language in
  if negb (Py.mem language (supported_languages self)) then
    ret (unsupported self language)
  else
    try_except
      (TemporaryDirectory env (λ temp_dir,
         match lookup_language self language with
         | Raise e => raise e
         | Return lang_config =>
             let file_extension := extension lang_config in
             let temp_file := path_join temp_dir ("code" +:+ file_extension) in
             _ <- write_text env temp_file code ;;
             match _prepare_command self env language temp_file temp_dir with
             | Raise e => raise e
             | Return command =>
                 result <- _execute_with_limits self env command stdin temp_dir ;;
                 ret (executed env language result)
             end
         end))
      (λ e, if is_Exception e then ret (execution_error env language e) else raise e).

(** [dangerous_patterns] of [validate_code] *)
Definition dangerous_patterns : list string :=
  [ "import os"; "import subprocess"; "import sys";
    "exec("; "eval("; "__import__";
    "open("; "file("; "input(";
    "raw_input("; "System."; "Runtime.";
    "fs."; "require(" +:+ String "034" "fs" +:+ String "034" ")";
    "require(" +:+ String "034" "child_process" +:+ String "034" ")";
    "process.exit"; "System.exit" ].

(** [validate_code(language, code)] *)
Definition validate_code (self : t) (language code : string) : Py.dict value :=
  if String.eqb (Py.strip code) "" then
    [ ("valid", VBool false); ("error", VStr "Code cannot be empty") ]
  else
    let code_lower := Py.lower code in
    match List.find (λ pattern, Py.contains (Py.lower pattern) code_lower)
            dangerous_patterns with
    | Some pattern =>
        [ ("valid", VBool false);
          ("error", VStr ("Potentially dangerous code detected: " +:+ pattern
                          +:+ ". Please remove it for security.")) ]
    | None => [ ("valid", VBool true); ("error", VNone) ]
    end.

End CodeExecutor.

(** ** api/code.py: the [/execute] handler *)

Module CodeApi.
Import Os.

Record CodeExecutionRequest := {
  code : string;
  language : string;
  input_data : option string;
  timeout : option Z;
  memory_limit : option Z
}.

(** Durations and psutil percentages are fixed-point numbers
    (thousandths). *)
Record CodeExecutionResponse := {
  output : string;
  error : option string;
  execution_time : option Z;
  memory_usage : option Z;
  cpu_usage : option Z;
  exit_code : option Z
}.

Record LanguageInfo := {
  name : string;
  extension : string;
  command : string;
  args : list string
}.

(** The fields of a response as the client receives them. *)
Definition model_dump (r : CodeExecutionResponse) : Py.dict value :=
  let opt {A} (f : A → value) (o : option A) :=
    match o with Some a => f a | None => VNone end in
  [ ("output", VStr (output r));
    ("error", opt VStr (error r));
    ("execution_time", opt VMillis (execution_time r));
    ("memory_usage", opt VMillis (memory_usage r));
    ("cpu_usage", opt VMillis (cpu_usage r));
    ("exit_code", opt VInt (exit_code r)) ].

(** [languages] of [execute_code] *)
Definition languages : Py.dict LanguageInfo :=
  [ ("python", {| name := "Python"; extension := ".py"; command := "python"; args := [] |});
    ("javascript", {| name := "JavaScript"; extension := ".js"; command := "node"; args := [] |});
    ("typescript", {| name := "TypeScript"; extension := ".ts"; command := "ts-node"; args := [] |});
    ("java", {| name := "Java"; extension := ".java"; command := "java"; args := [] |});
    ("cpp", {| name := "C++"; extension := ".cpp"; command := "g++";
               args := ["-o"; "program"; "-std=c++17"] |});
    ("c", {| name := "C"; extension := ".c"; command := "gcc";
             args := ["-o"; "program"; "-std=c99"] |});
    ("go", {| name := "Go"; extension := ".go"; command := "go"; args := ["run"] |});
    ("rust", {| name := "Rust"; extension := ".rs"; command := "rustc";
                args := ["-o"; "program"] |});
    ("php", {| name := "PHP"; extension := ".php"; command := "php"; args := [] |});
    ("ruby", {| name := "Ruby"; extension := ".rb"; command := "ruby"; args := [] |});
    ("csharp", {| name := "C#"; extension := ".cs"; command := "dotnet"; args := ["run"] |});
    ("swift", {| name := "Swift"; extension := ".swift"; command := "swift"; args := [] |}) ].

(** The project file written for a C# program. *)
Definition csproj_text : string :=
  let q := String "034" EmptyString in
  let nl := String "010" EmptyString in
  "<Project Sdk=" +:+ q +:+ "Microsoft.NET.Sdk" +:+ q +:+ ">" +:+ nl +:+
  "  <PropertyGroup>" +:+ nl +:+
  "    <OutputType>Exe</OutputType>" +:+ nl +:+
  "    <TargetFramework>net6.0</TargetFramework>" +:+ nl +:+
  "  </PropertyGroup>" +:+ nl +:+
  "</Project>".

(** The language names the fence pattern accepts after the backticks. *)
Definition fence_languages : list string :=
  [ "python"; "javascript"; "java"; "cpp"; "c"; "go"; "rust"; "php"; "ruby";
    "csharp"; "typescript"; "swift" ].

(** The markdown clean-up at the head of [execute_code]. *)
Definition clean_markdown (code : string) : string :=
  if Py.contains "```" code then
    match Py.first_code_block fence_languages code with
    | Some block => Py.strip block
    | None => Py.replace "```" "" (Py.remove_fence_lines code)
    end
  else code.

(** [subprocess.run(command, capture_output=True, text=True, input, timeout)]:
    the return code and the two streams. *)
Definition subprocess_run (env : Env) (command : list string)
    (input : option string) (timeout : option Z) (cwd : string)
  : M (Z * string * string) :=
  process <- Popen env command ["stdin"; "stdout"; "stderr"; "text"; "cwd"] cwd ;;
  streams <- communicate env process input timeout ;;
  let '(stdout, stderr, returncode) := streams in
  ret (returncode, stdout, stderr).

(** The response built after the program has run. *)
Definition run_response (env : Env) (exec_result : Z * string * string)
  : CodeExecutionResponse :=
  let '(returncode, stdout, stderr) := exec_result in
  {| output := stdout;
     error := if negb (returncode =? 0) then Some stderr else None;
     execution_time := Some (end_time env - start_time env);
     memory_usage := Some (memory_after env - memory_before env);
     cpu_usage := Some (cpu_after env - cpu_before env);
     exit_code := Some returncode |}.

(** The response returned when a compiler ends with a nonzero code. *)
Definition compile_error_response (env : Env) (compile_result : Z * string * string)
  : CodeExecutionResponse :=
  let '(returncode, _, stderr) := compile_result in
  {| output := "";
     error := Some ("Compilation error:" +:+ String "010" stderr);
     execution_time := Some (end_time env - start_time env);
     memory_usage := Some (memory_after env - memory_before env);
     cpu_usage := Some (cpu_after env - cpu_before env);
     exit_code := Some returncode |}.

(** The response of the two inner exception handlers. *)
Definition failure_response (env : Env) (text : string) : CodeExecutionResponse :=
  {| output := "";
     error := Some text;
     execution_time := Some (end_time env - start_time env);
     memory_usage := Some (memory_after env - memory_before env);
     cpu_usage := Some (cpu_after env - cpu_before env);
     exit_code := Some (-1) |}.

(** [str(request.timeout)] inside the timeout message *)
Definition timeout_text (timeout : option Z) : string :=
  match timeout with Some n => pretty n | None => "None" end.

(** The inner [try] of [execute_code]: the language branches. *)
Definition execute_language (env : Env) (request : CodeExecutionRequest)
    (lang_info : LanguageInfo) (clean_code temp_file_path : string)
  : M CodeExecutionResponse :=
  if existsb (String.eqb (language request)) ["cpp"; "c"; "rust"] then
    compile_result <-
      subprocess_run env ([command lang_info] ++ args lang_info ++ [temp_file_path])%list
        None (timeout request) "." ;;
    if negb (compile_result.1.1 =? 0) then
      ret (compile_error_response env compile_result)
    else
      exec_result <-
        subprocess_run env ["./program"] (input_data request) (timeout request) "." ;;
      ret (run_response env exec_result)
  else if String.eqb (language request) "java" then
    let class_name := Py.replace ".java" "" (path_name temp_file_path) in
    compile_result <-
      subprocess_run env ["javac"; temp_file_path] None (timeout request) "." ;;
    if negb (compile_result.1.1 =? 0) then
      ret (compile_error_response env compile_result)
    else
      exec_result <-
        subprocess_run env ["java"; "-cp"; "/tmp"; class_name]
          (input_data request) (timeout request) "." ;;
      ret (run_response env exec_result)
  else if String.eqb (language request) "csharp" then
    let project_dir := "/tmp/csharp_project_" +:+ uuid_hex8 env in
    _ <- makedirs env project_dir ;;
    let project_file := project_dir +:+ "/" +:+ "Program.csproj" in
    _ <- write_text env project_file csproj_text ;;
    let program_file := project_dir +:+ "/" +:+ "Program.cs" in
    _ <- write_text env program_file clean_code ;;
    exec_result <-
      subprocess_run env ["dotnet"; "run"] (input_data request) (timeout request)
        project_dir ;;
    ret (run_response env exec_result)
  else
    exec_result <-
      subprocess_run env ([command lang_info] ++ args lang_info ++ [temp_file_path])%list
        (input_data request) (timeout request) "." ;;
    ret (run_response env exec_result).

(** [execute_code(request)] *)
Definition execute_code (env : Env) (request : CodeExecutionRequest)
  : M CodeExecutionResponse :=
  try_except
    (match Py.get (language request) languages with
     | None =>
         raise {| exc := HTTPException 400;
                  message := "400: Unsupported language: " +:+ language request |}
     | Some lang_info =>
         let temp_dir := gettempdir env in
         let clean_code := clean_markdown (code request) in
         temp_file_path <-
           NamedTemporaryFile env (extension lang_info) temp_dir clean_code ;;
         try_except
           (execute_language env request lang_info clean_code temp_file_path)
           (λ e,
              if is_TimeoutExpired e then
                ret (failure_response env
                       ("Execution timeout after " +:+ timeout_text (timeout request)
                        +:+ " seconds"))
              else if is_Exception e then
                ret (failure_response env ("Execution error: " +:+ message e))
              else raise e)
     end)
    (λ e,
       if is_Exception e then
         raise {| exc := HTTPException 500;
                  message := "500: Code execution error: " +:+ message e |}
       else raise e).

End CodeApi.

(** ** api/code.py: [execute_code] from its first line

    The handler reads the clock and takes two psutil readings before its
    [try] (lines 81-83); an exception raised there is not caught by any of
    its handlers. *)

Module CodeApiEntry.
Import Os.

(** [execute_code(request)]; [psutil_error] is the exception raised by
    [psutil.virtual_memory()] or [psutil.cpu_percent()] before the [try],
    if any. *)
Definition execute_code (env : Env) (psutil_error : option exn)
    (request : CodeApi.CodeExecutionRequest) : M CodeApi.CodeExecutionResponse :=
  match psutil_error with
  | Some e => raise e
  | None => CodeApi.execute_code env request
  end.

End CodeApiEntry.

(** ** A machine for the scenarios

    A POSIX host on which every file operation succeeds, [python] prints
    [hi] for the one-line program of the specification's scenario, the C++
    compiler rejects its input, and every other child ends at once with
    code 0. *)

Module Scenario.
Import Os.

Definition last_argument (command : list string) : string :=
  List.last command "".

(** The file at [path] holds [text]. *)
Definition holds (w : world) (path text : string) : bool :=
  match files w !! path with
  | Some (File content) => String.eqb content text
  | _ => false
  end.

Definition host : Env := {|
  os_name := "posix";
  start_time := 0;
  end_time := 37;
  mkdtemp := λ _, Return "/tmp/tmpq3v0k2xd";
  gettempdir := "/tmp";
  mkstemp := λ _ suffix dir, Return (dir +:+ "/tmpa8c1f0e2" +:+ suffix);
  write_error := λ _ _ _, None;
  spawn_error := λ _ _, None;
  child := λ w command _ _,
    if String.eqb (List.hd "" command) "python" then
      if holds w (last_argument command) "print('hi')"
      then Exited ("hi" +:+ String "010" "") "" 0
      else Exited "" "" 0
    else if String.eqb (List.hd "" command) "g++" then
      Exited "" (last_argument command
                 +:+ ":1:12: error: expected '}' at end of input") 1
    else Exited "" "" 0;
  child_files := λ _ _ _, ∅;
  mkdir_error := λ _ _, None;
  memory_before := 41200;
  memory_after := 41300;
  cpu_before := 3000;
  cpu_after := 3500;
  uuid_hex8 := "3f2a9c1e"
|}.

(** The same host when no temporary directory can be created. *)
Definition full_disk : Env := {|
  os_name := os_name host;
  start_time := start_time host;
  end_time := end_time host;
  mkdtemp := λ _, Raise {| exc := OSError;
                           message := "[Errno 28] No space left on device" |};
  gettempdir := gettempdir host;
  mkstemp := mkstemp host;
  write_error := write_error host;
  spawn_error := spawn_error host;
  child := child host;
  child_files := child_files host;
  mkdir_error := mkdir_error host;
  memory_before := memory_before host;
  memory_after := memory_after host;
  cpu_before := cpu_before host;
  cpu_after := cpu_after host;
  uuid_hex8 := uuid_hex8 host
|}.

(** A disk without temporary files, and no child started yet. *)
Definition idle : world := {| files := ∅; spawned := [] |}.

Definition python_hi : CodeApi.CodeExecutionRequest := {|
  CodeApi.code := "print('hi')";
  CodeApi.language := "python";
  CodeApi.input_data := None;
  CodeApi.timeout := Some 30;
  CodeApi.memory_limit := Some 100
|}.

Definition cpp_broken : CodeApi.CodeExecutionRequest := {|
  CodeApi.code := "int main(){";
  CodeApi.language := "cpp";
  CodeApi.input_data := None;
  CodeApi.timeout := Some 30;
  CodeApi.memory_limit := Some 100
|}.

End Scenario.

(** ** performance_service.py: [PerformanceMonitor] *)

Module PerformanceMonitor.

(** [self.metrics].  Response times and psutil percentages are
    fixed-point numbers; the three deques are lists, oldest first. *)
Record t := {
  requests_total : Z;
  requests_errors : Z;
  response_times : list Z;
  cpu_usage : list Z;
  memory_usage : list Z;
  active_connections : Z
}.

(** [PerformanceMonitor()] *)
Definition init : t := {|
  requests_total := 0;
  requests_errors := 0;
  response_times := [];
  cpu_usage := [];
  memory_usage := [];
  active_connections := 0
|}.

(** [q.append(x)] on a [deque(maxlen=maxlen)]: when the deque is full the
    oldest items are discarded. *)
Definition deque_append {A} (maxlen : nat) (x : A) (q : list A) : list A :=
  let q' := (q ++ [x])%list in
  drop (length q' - maxlen) q'.

(** [record_request(response_time, status_code)] *)
Definition record_request (self : t) (response_time status_code : Z) : t := {|
  requests_total := requests_total self + 1;
  requests_errors :=
    if status_code >=? 400 then requests_errors self + 1 else requests_errors self;
  response_times := deque_append 1000 response_time (response_times self);
  cpu_usage := cpu_usage self;
  memory_usage := memory_usage self;
  active_connections := active_connections self
|}.

(** The effect of [record_system_metrics] on the metrics: [readings] is
    the pair of psutil percentages, or [None] when psutil raised (the
    handler logs the error and nothing is stored). *)
Definition record_system_metrics (self : t) (readings : option (Z * Z)) : t :=
  match readings with
  | None => self
  | Some (cpu_percent, memory_percent) => {|
      requests_total := requests_total self;
      requests_errors := requests_errors self;
      response_times := response_times self;
      cpu_usage := deque_append 100 cpu_percent (cpu_usage self);
      memory_usage := deque_append 100 memory_percent (memory_usage self);
      active_connections := active_connections self
    |}
  end.

(** What happens to a monitor, in order. *)
Inductive event :=
| Request (response_time status_code : Z)
| SystemMetrics (readings : option (Z * Z)).

Definition record (self : t) (e : event) : t :=
  match e with
  | Request response_time status_code => record_request self response_time status_code
  | SystemMetrics readings => record_system_metrics self readings
  end.

(** The response times of the requests among [events], in order. *)
Definition request_times (events : list event) : list Z :=
  omap (λ e, match e with Request t _ => Some t | _ => None end) events.

(** The status codes of the requests among [events], in order. *)
Definition request_statuses (events : list event) : list Z :=
  omap (λ e, match e with Request _ s => Some s | _ => None end) events.

(** The CPU percentages successfully read among [events], in order. *)
Definition cpu_readings (events : list event) : list Z :=
  omap (λ e, match e with SystemMetrics (Some (c, _)) => Some c | _ => None end) events.

End PerformanceMonitor.

(** ** performance_service.py: [CacheService] *)

Module CacheService.
Section Cache.

(** Clock ticks per second, and the type of the cached values. *)
Variable resolution : Z.
Context {V : Type}.

(** The attributes of a [CacheService]; [cache_ttl] holds expiry times. *)
Record t := {
  cache : gmap string V;
  cache_ttl : gmap string Z;
  default_ttl : Z
}.

(** [CacheService()] *)
Definition init : t := {| cache := ∅; cache_ttl := ∅; default_ttl := 300 |}.

(** [self.cache] and [self.cache_ttl] without [key] *)
Definition forget (key : string) (self : t) : t := {|
  cache := delete key (cache self);
  cache_ttl := delete key (cache_ttl self);
  default_ttl := default_ttl self
|}.

(** [get(key)] at clock reading [now]: the cached value, if any, and the
    cache afterwards. *)
Definition get (self : t) (now : Z) (key : string) : option V * t :=
  match cache self !! key with
  | Some value =>
      match cache_ttl self !! key with
      | Some expiry =>
          if expiry <? now then (None, forget key self) else (Some value, self)
      | None => (Some value, self)
      end
  | None => (None, self)
  end.

(** [set(key, value, ttl)] at clock reading [now]; [ttl] is in seconds. *)
Definition set (self : t) (now : Z) (key : string) (value : V) (ttl : option Z) : t :=
  let ttl := default (default_ttl self) ttl in
  {| cache := <[key := value]> (cache self);
     cache_ttl := <[key := now + ttl * resolution]> (cache_ttl self);
     default_ttl := default_ttl self |}.

(** [delete(key)] *)
Definition delete (self : t) (key : string) : t := forget key self.

(** [clear()] *)
Definition clear (self : t) : t :=
  {| cache := ∅; cache_ttl := ∅; default_ttl := default_ttl self |}.

(** The deletion loop of [cleanup_expired].  [del self.cache[key]] raises
    [KeyError] for a key that is not cached: the handler logs it and the
    pass ends there ([false]); otherwise the pass runs to its end
    ([true]). *)
Fixpoint delete_expired (expired_keys : list string) (self : t) : bool * t :=
  match expired_keys with
  | [] => (true, self)
  | key :: rest =>
      match cache self !! key with
      | None => (false, self)
      | Some _ => delete_expired rest (forget key self)
      end
  end.

(** One pass of the loop of [cleanup_expired] at clock reading [now].  The
    expired keys are visited in the order of the model's map; the order
    matters only when a [KeyError] ends the pass. *)
Definition cleanup_pass (self : t) (now : Z) : bool * t :=
  let expired_keys :=
    (filter (λ entry, entry.2 < now) (map_to_list (cache_ttl self))).*1 in
  delete_expired expired_keys self.

(** Every key with an expiry time is cached, and conversely: the state
    the methods keep. *)
Definition consistent (self : t) : Prop :=
  ∀ key, is_Some (cache self !! key) ↔ is_Some (cache_ttl self !! key).

End Cache.
End CacheService.

(** ** api/ai_compiler.py: the [/run] handler *)

Module AiCompiler.
Import Os.

Record RunCodeRequest := {
  language : string;
  code : string;
  stdin : option string
}.

(** The module-level objects the handler works on. *)
Record services := {
  rate_limiter : RateLimiter.t;
  performance_monitor : PerformanceMonitor.t
}.

(** The [time.time()] readings of one request, in milliseconds, in the
    order the handler and the limiter take them. *)
Record readings := {
  request_start : Z;
  limit_check : Z;
  remaining_check : Z;
  request_end : Z;
  executed_at : Z
}.

(** [user.get("username", fallback) if user else fallback]; [user] is the
    dictionary of the authenticated user or [None]. *)
Definition user_field (user : option (Py.dict string)) (fallback : string) : string :=
  match user with
  | Some (field :: fields) => default fallback (Py.get "username" (field :: fields))
  | _ => fallback
  end.

(** [bool(v)] *)
Definition truthy (v : value) : bool :=
  match v with
  | VNone => false
  | VBool b => b
  | VInt n | VMillis n => negb (n =? 0)
  | VStr s => negb (String.eqb s "")
  end.

(** [str(v)] for the values a validation result holds *)
Definition text_of (v : value) : string :=
  match v with
  | VNone => "None"
  | VBool true => "True"
  | VBool false => "False"
  | VInt n => pretty n
  | VMillis n => pretty n
  | VStr s => s
  end.

(** [performance_monitor.record_request(time.time() - start_time, status)] *)
Definition recorded (clock : readings) (status_code : Z)
    (limiter : RateLimiter.t) (s : services) : services :=
  {| rate_limiter := limiter;
     performance_monitor :=
       PerformanceMonitor.record_request (performance_monitor s)
         (request_end clock - request_start clock) status_code |}.

(** The rate-limit check of the handler:
    [rate_limiter.is_allowed(user_id, "code_executions_per_minute", user_type)]. *)
Definition admission (clock : readings) (user : option (Py.dict string))
    (s : services) : bool * RateLimiter.t :=
  RateLimiter.is_allowed 1000 (rate_limiter s) (limit_check clock)
    (user_field user "anonymous") "code_executions_per_minute"
    (user_field user "default").

(** [code_executor.validate_code(request.language, request.code)] *)
Definition validation (request : RunCodeRequest) : Py.dict value :=
  CodeExecutor.validate_code CodeExecutor.code_executor
    (language request) (code request).

(** [run_code_endpoint(request, user)]: the value returned or the
    exception raised, the services and the world afterwards. *)
Definition run_code_endpoint (env : Env) (clock : readings)
    (request : RunCodeRequest) (user : option (Py.dict string))
    (s : services) (w : world) : result (Py.dict value) * services * world :=
  let user_type := user_field user "default" in
  let user_id := user_field user "anonymous" in
  let '(allowed, limiter) := admission clock user s in
  if negb allowed then
    let '(remaining, limiter) :=
      RateLimiter.get_remaining_requests 1000 limiter (remaining_check clock)
        user_id "code_executions_per_minute" user_type in
    (Raise {| exc := HTTPException 429;
              message := "429: Code execution rate limit exceeded. Remaining: "
                         +:+ pretty remaining |},
     recorded clock 400 limiter s, w)
  else
    let validation_result := validation request in
    if negb (truthy (default VNone (Py.get "valid" validation_result))) then
      (Raise {| exc := HTTPException 400;
                message := "400: Code validation failed: "
                           +:+ text_of (default VNone (Py.get "error" validation_result)) |},
       recorded clock 400 limiter s, w)
    else
      match CodeExecutor.run_code CodeExecutor.code_executor env
              (language request) (code request) (stdin request) w with
      | (Return result, w') =>
          (Return (Py.update result
                     [ ("executed_at", VMillis (executed_at clock));
                       ("user_type", VStr user_type) ]),
           recorded clock 200 limiter s, w')
      | (Raise e, w') =>
          if is_Exception e then
            (Raise {| exc := HTTPException 500;
                      message := "500: Code execution failed: " +:+ message e |},
             recorded clock 500 limiter s, w')
          else
            (Raise e,
             {| rate_limiter := limiter;
                performance_monitor := performance_monitor s |}, w')
      end.

End AiCompiler.

(** ** Further scenarios

    A machine on which every child hangs, a C program, and the services of
    the [/run] handler in two states: new, and with the quota of the user
    [demo] used up. *)

Module Cases.
Import Os.

(** The host of [Scenario] when every child runs past its timeout. *)
Definition stalled : Env := {|
  os_name := os_name Scenario.host;
  start_time := start_time Scenario.host;
  end_time := end_time Scenario.host;
  mkdtemp := mkdtemp Scenario.host;
  gettempdir := gettempdir Scenario.host;
  mkstemp := mkstemp Scenario.host;
  write_error := write_error Scenario.host;
  spawn_error := spawn_error Scenario.host;
  child := λ _ _ _ _, Hung;
  child_files := child_files Scenario.host;
  mkdir_error := mkdir_error Scenario.host;
  memory_before := memory_before Scenario.host;
  memory_after := memory_after Scenario.host;
  cpu_before := cpu_before Scenario.host;
  cpu_after := cpu_after Scenario.host;
  uuid_hex8 := uuid_hex8 Scenario.host
|}.

Definition c_program : CodeApi.CodeExecutionRequest := {|
  CodeApi.code := "int main(void){return 0;}";
  CodeApi.language := "c";
  CodeApi.input_data := None;
  CodeApi.timeout := Some 30;
  CodeApi.memory_limit := Some 100
|}.

Definition capitals : CodeApi.CodeExecutionRequest := {|
  CodeApi.code := "print('hi')";
  CodeApi.language := "Python";
  CodeApi.input_data := None;
  CodeApi.timeout := Some 30;
  CodeApi.memory_limit := Some 100
|}.

(** A chat answer with the program of the scenario inside a fence. *)
Definition fenced_answer : string :=
  "Here is the program:" +:+ "```"
  +:+ ("python" +:+ String "010" (("print('hi')" +:+ String "010" "")
                                  +:+ "```" +:+ " Run it.")).

Definition demo_user : option (Py.dict string) := Some [("username", "demo")].

Definition clock : AiCompiler.readings := {|
  AiCompiler.request_start := 10000;
  AiCompiler.limit_check := 10001;
  AiCompiler.remaining_check := 10001;
  AiCompiler.request_end := 10003;
  AiCompiler.executed_at := 10004
|}.

Definition print_hi : AiCompiler.RunCodeRequest := {|
  AiCompiler.language := "python";
  AiCompiler.code := "print('hi')";
  AiCompiler.stdin := None
|}.

Definition import_os : AiCompiler.RunCodeRequest := {|
  AiCompiler.language := "python";
  AiCompiler.code := "import os";
  AiCompiler.stdin := None
|}.

Definition fresh : AiCompiler.services := {|
  AiCompiler.rate_limiter := RateLimiter.init;
  AiCompiler.performance_monitor := PerformanceMonitor.init
|}.

(** The user [demo] has run code five times in the last ten seconds. *)
Definition busy : AiCompiler.services := {|
  AiCompiler.rate_limiter :=
    (RateLimiter.is_allowed_calls 1000 RateLimiter.init [1000; 2000; 3000; 4000; 5000]
       "demo" "code_executions_per_minute" "demo").2;
  AiCompiler.performance_monitor := PerformanceMonitor.init
|}.



(** A limiter that has seen three requests of [u1] within the hour. *)
Definition seen : RateLimiter.t :=
  (RateLimiter.is_allowed_calls 1 RateLimiter.init [0; 100; 3900]
     "u1" "requests_per_hour" "default").2.

End Cases.

(** * Properties *)

(** ** Rate limiter *)

Section RateLimiterProps.
Import RateLimiter.

Variable resolution : Z.

Lemma get_Forall {V} (P : V → Prop) (d : Py.dict V) k v :
  Forall (λ kv, P kv.2) d → Py.get k d = Some v → P v.
Proof.
  induction 1 as [|[k' v'] d HP _ IH]; simpl; [done|].
  destruct (String.eqb k k'); [|done].
  by intros [= <-].
Qed.

Lemma default_limits_pos : Forall (λ kv, 0 < kv.2) default_limits.
Proof. repeat constructor. Qed.

Lemma user_limits_pos :
  Forall (λ tier, Forall (λ kv, 0 < kv.2) tier.2) user_limits.
Proof. repeat constructor. Qed.

(** Every ceiling the limiter can look up is positive. *)
Lemma limit_of_pos limit_type user_type : 0 < limit_of limit_type user_type.
Proof.
  unfold limit_of.
  assert (Forall (λ kv, 0 < kv.2)
            (default default_limits (Py.get user_type user_limits))) as Hl.
  { destruct (Py.get user_type user_limits) as [tbl|] eqn:E; simpl.
    - exact (get_Forall (λ tbl, Forall (λ kv, 0 < kv.2) tbl) _ _ _ user_limits_pos E).
    - apply default_limits_pos. }
  destruct (Py.get limit_type (default _ _)) as [v|] eqn:E.
  - exact (get_Forall _ _ _ _ Hl E).
  - destruct (Py.get limit_type default_limits) as [v|] eqn:E'.
    + exact (get_Forall _ _ _ _ default_limits_pos E').
    + reflexivity.
Qed.

(** Eviction only pops from the front: timestamps at or after the cutoff
    that follow the front part are kept. *)
Lemma evict_app cutoff (old recent : list Z) :
  Forall (λ t, cutoff ≤ t) recent →
  evict cutoff (old ++ recent) = (evict cutoff old ++ recent)%list.
Proof.
  intros Hrecent. induction old as [|t old IH]; simpl.
  - destruct Hrecent as [|t recent Ht _]; simpl; [done|].
    destruct (Z.ltb_spec t cutoff); [lia|done].
  - by destruct (t <? cutoff).
Qed.

Lemma evict_all_old cutoff (q : list Z) :
  Forall (λ t, t < cutoff) q → evict cutoff q = [].
Proof.
  induction 1 as [|t q Ht _ IH]; simpl; [done|].
  destruct (Z.ltb_spec t cutoff); [done|lia].
Qed.

Lemma evict_length cutoff (q : list Z) :
  (length (evict cutoff q) ≤ length q)%nat.
Proof.
  induction q as [|t q IH]; simpl; [done|].
  destruct (t <? cutoff); simpl; lia.
Qed.

(** On a record in chronological order, eviction keeps exactly the
    timestamps inside the window. *)
Lemma evict_sorted cutoff (q : list Z) :
  Sorted Z.le q →
  evict cutoff q = filter (λ t, cutoff ≤ t) q.
Proof.
  intros Hs. apply Sorted_StronglySorted in Hs; [|intros x y z; lia].
  induction Hs as [|t q Hq IH Ht]; simpl; [done|].
  destruct (Z.ltb_spec t cutoff) as [Hlt|Hge].
  - rewrite filter_cons_False by lia. done.
  - rewrite filter_cons_True by lia. f_equal.
    clear IH Hq. induction Ht as [|u q Hu _ IH]; [done|].
    rewrite filter_cons_True by lia. by f_equal.
Qed.

Lemma evict_keeps_sorted cutoff (q : list Z) :
  Sorted Z.le q → Sorted Z.le (evict cutoff q).
Proof.
  induction 1 as [|t q Hq IH Ht]; simpl; [constructor|].
  destruct (t <? cutoff); [done|by constructor].
Qed.

Lemma evict_keeps_bound cutoff now (q : list Z) :
  Forall (λ t, t ≤ now) q → Forall (λ t, t ≤ now) (evict cutoff q).
Proof.
  induction 1 as [|t q Ht Hq IH]; simpl; [constructor|].
  destruct (t <? cutoff); [done|by constructor].
Qed.

Lemma sorted_snoc now (q : list Z) :
  Sorted Z.le q → Forall (λ t, t ≤ now) q → Sorted Z.le (q ++ [now]).
Proof.
  induction 1 as [|t q Hq IH Ht]; intros Hb; simpl.
  - repeat constructor.
  - apply Forall_cons in Hb as [Htn Hb]. constructor; [by apply IH|].
    destruct Ht as [|u q Htu]; simpl; constructor; [done|lia].
Qed.

Lemma record_of_insert (self : t) k q :
  record_of {| requests := <[k := q]> (requests self) |} k = q.
Proof. unfold record_of; simpl. by rewrite lookup_insert_eq. Qed.

(** One call, in terms of the record it leaves behind. *)
Lemma is_allowed_record (self : t) now key limit_type user_type :
  let q := evict (now - window_of resolution limit_type)
             (record_of self (record_key key limit_type)) in
  let r := is_allowed resolution self now key limit_type user_type in
  (r.1 = false ∧ limit_of limit_type user_type ≤ Z.of_nat (length q) ∧
     record_of r.2 (record_key key limit_type) = q) ∨
  (r.1 = true ∧ Z.of_nat (length q) < limit_of limit_type user_type ∧
     record_of r.2 (record_key key limit_type) = (q ++ [now])%list).
Proof.
  intros q r. subst q r. unfold is_allowed.
  destruct (Z.geb_spec
    (Z.of_nat (length (evict (now - window_of resolution limit_type)
       (record_of self (record_key key limit_type)))))
    (limit_of limit_type user_type)) as [Hge|Hlt]; simpl.
  - left. rewrite record_of_insert. split; [done|]. split; [lia|done].
  - right. rewrite record_of_insert. split; [done|]. split; [lia|done].
Qed.

(** While the clock does not run backwards, a record stays in
    chronological order: a call made at a reading no earlier than the
    recorded ones leaves the record sorted and bounded by that reading. *)
Lemma is_allowed_chronological (self : t) now key limit_type user_type :
  let k := record_key key limit_type in
  Sorted Z.le (record_of self k) →
  Forall (λ t, t ≤ now) (record_of self k) →
  Sorted Z.le
    (record_of (is_allowed resolution self now key limit_type user_type).2 k) ∧
  Forall (λ t, t ≤ now)
    (record_of (is_allowed resolution self now key limit_type user_type).2 k).
Proof.
  intros k Hs Hb. subst k.
  pose proof (evict_keeps_sorted (now - window_of resolution limit_type) _ Hs) as Hs'.
  pose proof (evict_keeps_bound (now - window_of resolution limit_type) _ _ Hb) as Hb'.
  destruct (is_allowed_record self now key limit_type user_type)
    as [(_ & _ & ->)|(_ & _ & ->)]; [done|].
  split; [by apply sorted_snoc|].
  apply Forall_app; split; [done|]. by repeat constructor.
Qed.

(** Calls that are all admitted, made at readings no later than [now] and
    no older than the window that ends at [now], stay on the record. *)
Lemma is_allowed_calls_admitted key limit_type user_type now times :
  ∀ (self : t) (old recent : list Z),
    record_of self (record_key key limit_type) = (old ++ recent)%list →
    Forall (λ t, now - window_of resolution limit_type ≤ t) recent →
    Forall (λ t, now - window_of resolution limit_type ≤ t ≤ now) times →
    Forall (λ v, v = true)
      (is_allowed_calls resolution self times key limit_type user_type).1 →
    ∃ old',
      record_of (is_allowed_calls resolution self times key limit_type user_type).2
        (record_key key limit_type) = (old' ++ recent ++ times)%list.
Proof.
  induction times as [|t times IH]; intros self old recent Hrec Hrecent Htimes Hadm.
  - exists old. simpl. by rewrite app_nil_r.
  - simpl in *.
    destruct (is_allowed resolution self t key limit_type user_type)
      as [verdict self1] eqn:E1.
    destruct (is_allowed_calls resolution self1 times key limit_type user_type)
      as [verdicts self2] eqn:E2.
    simpl in *.
    apply Forall_cons in Hadm as [-> Hadm].
    apply Forall_cons in Htimes as [Ht Htimes].
    pose proof (is_allowed_record self t key limit_type user_type) as Hcall.
    rewrite E1 in Hcall; simpl in Hcall.
    destruct Hcall as [[? _]|(_ & _ & Hrec1)]; [done|].
    rewrite Hrec, evict_app in Hrec1
      by (eapply Forall_impl; [exact Hrecent|simpl; intros; lia]).
    rewrite <- app_assoc in Hrec1.
    destruct (IH self1 _ _ Hrec1) as [old' Hold'].
    + apply Forall_app; split; [done|]. constructor; [lia|done].
    + done.
    + by rewrite E2.
    + exists old'. rewrite E2 in Hold'. simpl in Hold'.
      by rewrite Hold', <- !app_assoc.
Qed.

(** C2. After exactly [limit] admitted calls for a key inside one window,
    the next call inside that window is denied and only evicts: nothing is
    appended and the admitted timestamps are still the newest entries of
    the record.  Once every recorded timestamp is older than the window, a
    call for the same key is admitted again. *)
Theorem is_allowed_ceiling_then_window_elapses
    (self : t) (key limit_type user_type : string)
    (times : list Z) (now later : Z) :
  Z.of_nat (length times) = limit_of limit_type user_type →
  Forall (λ t, now - window_of resolution limit_type ≤ t ≤ now) times →
  Forall (λ v, v = true)
    (is_allowed_calls resolution self times key limit_type user_type).1 →
  let self1 := (is_allowed_calls resolution self times key limit_type user_type).2 in
  let denied := is_allowed resolution self1 now key limit_type user_type in
  denied.1 = false ∧
  record_of denied.2 (record_key key limit_type)
    = evict (now - window_of resolution limit_type)
        (record_of self1 (record_key key limit_type)) ∧
  (∃ older, record_of denied.2 (record_key key limit_type) = (older ++ times)%list) ∧
  (Forall (λ t, t < later - window_of resolution limit_type)
     (record_of denied.2 (record_key key limit_type)) →
   (is_allowed resolution denied.2 later key limit_type user_type).1 = true).
Proof.
  intros Hlen Htimes Hadm self1 denied.
  destruct (is_allowed_calls_admitted key limit_type user_type now times
              self (record_of self (record_key key limit_type)) [])
    as [old Hold]; [by rewrite app_nil_r|done|done|done|].
  simpl in Hold. fold self1 in Hold.
  pose proof (is_allowed_record self1 now key limit_type user_type) as Hcall.
  fold denied in Hcall. simpl in Hcall.
  rewrite Hold in Hcall.
  rewrite evict_app in Hcall
    by (eapply Forall_impl; [exact Htimes|simpl; intros; lia]).
  destruct Hcall as [(Hv & _ & Hrec)|(_ & Hlt & _)].
  - split; [done|]. split; [by rewrite Hold, evict_app
      by (eapply Forall_impl; [exact Htimes|simpl; intros; lia])|].
    split; [by eexists|].
    intros Hold_all.
    pose proof (is_allowed_record denied.2 later key limit_type user_type) as Hcall.
    simpl in Hcall. rewrite (evict_all_old _ _ Hold_all) in Hcall.
    destruct Hcall as [(_ & Hge & _)|(? & _)]; [|done].
    pose proof (limit_of_pos limit_type user_type). simpl in Hge. lia.
  - rewrite length_app in Hlt. lia.
Qed.

(** C8 (amended). [get_remaining_requests] returns [max(0, limit - count)],
    [count] being the length of the record after eviction from the front,
    which on a chronological record is the number of timestamps inside the
    window.  The call rewrites the record of its key to the evicted one
    (creating it when absent), appends nothing, and leaves every other
    record alone. *)
Theorem get_remaining_requests_evicts
    (self : t) (now : Z) (key limit_type user_type : string) :
  let k := record_key key limit_type in
  let cutoff := now - window_of resolution limit_type in
  let r := get_remaining_requests resolution self now key limit_type user_type in
  r.1 = Z.max 0 (limit_of limit_type user_type
                 - Z.of_nat (length (evict cutoff (record_of self k)))) ∧
  (Sorted Z.le (record_of self k) →
     evict cutoff (record_of self k) = filter (λ t, cutoff ≤ t) (record_of self k)) ∧
  requests r.2 = <[k := evict cutoff (record_of self k)]> (requests self) ∧
  (∀ k', k' ≠ k → requests r.2 !! k' = requests self !! k') ∧
  (requests self !! k = Some (evict cutoff (record_of self k)) → r.2 = self).
Proof.
  intros k cutoff r. subst r. unfold get_remaining_requests. simpl.
  fold k. fold cutoff.
  split; [done|]. split; [apply evict_sorted|]. split; [done|].
  split.
  - intros k' Hne. by rewrite lookup_insert_ne.
  - intros Hsame. destruct self as [m]. simpl in *. f_equal.
    by apply insert_id.
Qed.

End RateLimiterProps.

(** C2, on the demo tier: five code executions admitted, the sixth denied,
    the seventh admitted two minutes later. *)
Lemma is_allowed_ceiling_then_window_elapses_witness :
  let self1 := (RateLimiter.is_allowed_calls 1 RateLimiter.init [0; 1; 2; 3; 4]
                  "u1" "code_executions_per_minute" "demo").2 in
  let denied := RateLimiter.is_allowed 1 self1 10 "u1" "code_executions_per_minute" "demo" in
  denied.1 = false ∧
  (RateLimiter.is_allowed 1 denied.2 120 "u1" "code_executions_per_minute" "demo").1 = true.
Proof.
  pose proof (is_allowed_ceiling_then_window_elapses 1 RateLimiter.init
    "u1" "code_executions_per_minute" "demo" [0; 1; 2; 3; 4] 10 120) as H.
  destruct H as (Hdenied & _ & _ & Hagain).
  - reflexivity.
  - repeat constructor; vm_compute; discriminate.
  - vm_compute. repeat constructor.
  - split; [exact Hdenied|]. apply Hagain.
    vm_compute. repeat constructor.
Defined.

(** C8 as first stated fails: a call that finds an expired timestamp
    removes it from the limiter. *)
Lemma get_remaining_requests_mutates :
  let self := {| RateLimiter.requests := {[ "u1:requests_per_minute" := [0] ]} |} in
  (RateLimiter.get_remaining_requests 1 self 1000 "u1" "requests_per_minute" "default").2
    ≠ self.
Proof.
  simpl. intros H.
  apply (f_equal (λ s, RateLimiter.requests s !! "u1:requests_per_minute")) in H.
  vm_compute in H. discriminate.
Qed.

(** ** Execution engine: [CodeExecutor] *)

Section CodeExecutorProps.
Import Os CodeExecutor.

Lemma mem_get {V} k (d : Py.dict V) :
  Py.mem k d = true ↔ ∃ v, Py.get k d = Some v.
Proof.
  unfold Py.mem. destruct (Py.get k d) as [v|]; split.
  - by exists v.
  - done.
  - done.
  - by intros [v ?].
Qed.

(** [Popen] has no [timeout] parameter: the call in [_execute_with_limits]
    raises [TypeError] before any child is started, and the last handler
    turns it into a failed result. *)
Lemma execute_with_limits_TypeError self env command stdin cwd w :
  _execute_with_limits self env command stdin cwd w
  = (Return (execution_failed (unexpected_keyword "timeout")), w).
Proof. reflexivity. Qed.

Lemma prepare_command_supported self env language file_path temp_dir cfg :
  Py.get language (supported_languages self) = Some cfg →
  ∃ command, _prepare_command self env language file_path temp_dir = Return command.
Proof.
  intros Hcfg. unfold _prepare_command, lookup_language. rewrite Hcfg.
  destruct (String.eqb language "java"); [by eexists|].
  destruct (existsb _ _); by eexists.
Qed.

(** What [run_code] does for a language it does not know. *)
Lemma run_code_unsupported self env language code stdin w :
  Py.mem (Py.lower language) (supported_languages self) = false →
  run_code self env language code stdin w
  = (Return (unsupported self (Py.lower language)), w).
Proof. intros H. unfold run_code. by rewrite H. Qed.

(** What [run_code] does for a supported language, by the first step that
    raises. *)
Lemma run_code_supported self env language code stdin w cfg :
  Py.get (Py.lower language) (supported_languages self) = Some cfg →
  run_code self env language code stdin w =
    match mkdtemp env w with
    | Raise e =>
        if is_Exception e
        then (Return (execution_error env (Py.lower language) e), w)
        else (Raise e, w)
    | Return temp_dir =>
        let w1 := add_file temp_dir Dir w in
        let temp_file := path_join temp_dir ("code" +:+ extension cfg) in
        match write_error env w1 temp_file code with
        | Some (e, created) =>
            let w2 := rmtree temp_dir
                        (if created then add_file temp_file (File "") w1 else w1) in
            if is_Exception e
            then (Return (execution_error env (Py.lower language) e), w2)
            else (Raise e, w2)
        | None =>
            (Return (executed env (Py.lower language)
                       (execution_failed (unexpected_keyword "timeout"))),
             rmtree temp_dir (add_file temp_file (File code) w1))
        end
    end.
Proof.
  intros Hcfg. unfold run_code.
  assert (Py.mem (Py.lower language) (supported_languages self) = true) as ->
    by (apply mem_get; eauto).
  cbn [negb]. unfold try_except, TemporaryDirectory.
  destruct (mkdtemp env w) as [temp_dir|e]; [|by destruct (is_Exception e)].
  unfold lookup_language at 1. rewrite Hcfg.
  unfold bind, write_text.
  destruct (write_error env _ _ code) as [[e created]|].
  - unfold raise, ret. by destruct (is_Exception e).
  - destruct (prepare_command_supported self env (Py.lower language)
                (path_join temp_dir ("code" +:+ extension cfg)) temp_dir cfg Hcfg)
      as [command ->].
    by rewrite execute_with_limits_TypeError.
Qed.

(** C1. [run_code("python", "print('hi')")] cannot report success: on a
    machine where the temporary directory and the source file are written
    it returns the failed result that carries the [TypeError] of [Popen];
    on any machine it returns [success = False] with empty output, or lets
    through an exception that does not derive from [Exception]; no child is
    started. *)
Theorem run_code_python_print_hi_fails env stdin w :
  let r := run_code code_executor env "python" "print('hi')" stdin w in
  (∀ temp_dir,
     mkdtemp env w = Return temp_dir →
     write_error env (add_file temp_dir Dir w) (path_join temp_dir "code.py")
       "print('hi')" = None →
     r.1 = Return
       [ ("success", VBool false);
         ("output", VStr "");
         ("error", VStr "Execution failed: Popen.__init__() got an unexpected keyword argument 'timeout'");
         ("execution_time", VMillis (end_time env - start_time env));
         ("memory_usage", VInt 0);
         ("language", VStr "python") ]) ∧
  match r.1 with
  | Return d => Py.get "success" d = Some (VBool false)
                ∧ Py.get "output" d = Some (VStr "")
  | Raise e => is_Exception e = false
  end ∧
  spawned r.2 = spawned w.
Proof.
  intros r. subst r.
  rewrite (run_code_supported code_executor env "python" _ stdin w
             {| extension := ".py"; command := ["python"] |}) by reflexivity.
  split; [|split].
  - intros temp_dir -> Hw. cbn zeta.
    change ("code" +:+ extension {| extension := ".py"; command := ["python"] |})
      with "code.py".
    by rewrite Hw.
  - destruct (mkdtemp env w) as [temp_dir|e].
    + cbn zeta. destruct (write_error env _ _ _) as [[e created]|]; [|done].
      by destruct (is_Exception e) eqn:E.
    + by destruct (is_Exception e) eqn:E.
  - destruct (mkdtemp env w) as [temp_dir|e].
    + cbn zeta. destruct (write_error env _ _ _) as [[e created]|]; [|done].
      by destruct (is_Exception e), created.
    + by destruct (is_Exception e).
Qed.

(** C4 (amended). For a language whose lower-case form is not a key of
    [supported_languages], [run_code] returns [success = False], the
    message that names the language and lists the supported ones,
    [execution_time] 0 and [memory_usage] 0, without a classification;
    the world is left as it was: no file written, no child started. *)
Theorem run_code_unsupported_language self env language code stdin w :
  Py.mem (Py.lower language) (supported_languages self) = false →
  run_code self env language code stdin w
  = (Return
       [ ("success", VBool false);
         ("output", VStr "");
         ("error", VStr ("Language '" +:+ Py.lower language
                         +:+ "' is not supported. Supported languages: "
                         +:+ Py.join ", " (Py.keys (supported_languages self))));
         ("execution_time", VInt 0);
         ("memory_usage", VInt 0) ],
     w).
Proof.
  intros Hunknown. unfold run_code.
  rewrite Hunknown. cbn [negb].
  reflexivity.
Qed.

(** C5 (amended). On a machine whose exceptions all derive from
    [Exception], [run_code] always returns a dictionary.  For a supported
    language the dictionary has [success = False] and an [error] that
    carries the message of the exception raised: behind
    ["Execution error: "] when the temporary directory or the source file
    could not be written, behind ["Execution failed: "] for the
    [TypeError] of [Popen] otherwise.  The dictionary has no
    classification. *)
Theorem run_code_converts_exceptions self env language code stdin w :
  raises_only_Exception env →
  let r := run_code self env language code stdin w in
  (∃ d, r.1 = Return d ∧ Py.get "classification" d = None) ∧
  (∀ cfg, Py.get (Py.lower language) (supported_languages self) = Some cfg →
     ∃ d e, r.1 = Return d ∧
       Py.get "success" d = Some (VBool false) ∧
       ((mkdtemp env w = Raise e ∨
         ∃ temp_dir created,
           mkdtemp env w = Return temp_dir ∧
           write_error env (add_file temp_dir Dir w)
             (path_join temp_dir ("code" +:+ extension cfg)) code = Some (e, created)) ∧
        Py.get "error" d = Some (VStr ("Execution error: " +:+ message e))
        ∨
        (∃ temp_dir,
           mkdtemp env w = Return temp_dir ∧
           write_error env (add_file temp_dir Dir w)
             (path_join temp_dir ("code" +:+ extension cfg)) code = None) ∧
        e = unexpected_keyword "timeout" ∧
        Py.get "error" d = Some (VStr ("Execution failed: " +:+ message e)))).
Proof.
  intros (Hdir & _ & Hwrite & _) r. subst r.
  destruct (Py.get (Py.lower language) (supported_languages self)) as [cfg|] eqn:Hcfg.
  - rewrite (run_code_supported _ _ _ _ _ _ cfg Hcfg).
    destruct (mkdtemp env w) as [temp_dir|e] eqn:Hmk.
    + cbn zeta.
      destruct (write_error env _ _ code) as [[e created]|] eqn:Hw.
      * rewrite (Hwrite _ _ _ _ _ Hw). split; [by eexists|].
        intros ? [= <-]. eexists _, e. split; [done|]. split; [done|].
        left. split; [|done]. right. by exists temp_dir, created.
      * split; [by eexists|].
        intros ? [= <-]. eexists _, _. split; [done|]. split; [done|].
        right. split; [by exists temp_dir|done].
    + rewrite (Hdir _ _ Hmk). split; [by eexists|].
      intros ? [= <-]. eexists _, e. split; [done|]. split; [done|].
      left. split; [by left|done].
  - split; [|done].
    rewrite run_code_unsupported; [by eexists|].
    unfold Py.mem. by rewrite Hcfg.
Qed.

Lemma prefix_append a c : String.prefix a (a +:+ c) = true.
Proof.
  induction a as [|x a IH]; simpl; [by destruct c|].
  by destruct (ascii_dec x x).
Qed.

Lemma append_assoc a b c : (a +:+ b) +:+ c = a +:+ (b +:+ c).
Proof.
  induction a as [|x a IH]; [done|].
  change (String x ((a +:+ b) +:+ c) = String x (a +:+ (b +:+ c))).
  by rewrite IH.
Qed.

Lemma under_self dir : under dir dir = true.
Proof. unfold under. by rewrite String.eqb_refl. Qed.

Lemma under_path_join dir name : under dir (path_join dir name) = true.
Proof.
  unfold under, path_join. apply orb_true_iff. right.
  rewrite <- append_assoc. apply prefix_append.
Qed.

Lemma rmtree_lookup_under dir path w :
  under dir path = true → files (rmtree dir w) !! path = None.
Proof.
  intros Hu. unfold rmtree; simpl.
  apply map_lookup_filter_None. right. intros x _ Hn. simpl in Hn.
  apply Hn. by rewrite Hu.
Qed.

Lemma rmtree_lookup_other dir path w :
  under dir path = false → files (rmtree dir w) !! path = files w !! path.
Proof.
  intros Hu. unfold rmtree; simpl.
  destruct (files w !! path) as [n|] eqn:E.
  - apply map_lookup_filter_Some. split; [done|]. simpl. rewrite Hu. exact id.
  - apply map_lookup_filter_None. by left.
Qed.

(** The sibling of the handler in api/code.py: when [run_code] ends,
    whichever way, the temporary directory and everything below it are
    gone, and the files elsewhere are as before. *)
Lemma run_code_removes_temporary_directory self env language code stdin w
    cfg temp_dir path :
  Py.get (Py.lower language) (supported_languages self) = Some cfg →
  mkdtemp env w = Return temp_dir →
  files (run_code self env language code stdin w).2 !! path
  = if under temp_dir path then None else files w !! path.
Proof.
  intros Hcfg Hmk. rewrite (run_code_supported _ _ _ _ _ _ cfg Hcfg), Hmk.
  cbn zeta.
  assert (∀ w', (∀ p, under temp_dir p = false → files w' !! p = files w !! p) →
            files (rmtree temp_dir w') !! path
            = if under temp_dir path then None else files w !! path) as Hrm.
  { intros w' Hw'. destruct (under temp_dir path) eqn:Hu.
    - by apply rmtree_lookup_under.
    - rewrite rmtree_lookup_other by done. by apply Hw'. }
  assert (∀ p n, under temp_dir p = false →
            files (add_file temp_dir n w) !! p = files w !! p) as Hdir.
  { intros p n Hp. simpl. apply lookup_insert_ne. intros <-.
    by rewrite under_self in Hp. }
  assert (∀ p name n w', under temp_dir p = false →
            files (add_file (path_join temp_dir name) n w') !! p = files w' !! p)
    as Hfile.
  { intros p name n w' Hp. simpl. apply lookup_insert_ne. intros <-.
    by rewrite under_path_join in Hp. }
  destruct (write_error env _ _ code) as [[e [|]]|];
    [destruct (is_Exception e)..|]; cbn [snd]; apply Hrm; intros p Hp;
    rewrite ?Hfile by done; by apply Hdir.
Qed.

End CodeExecutorProps.

(** C4, for a language the executor does not know. *)
Lemma run_code_unsupported_language_witness :
  CodeExecutor.run_code CodeExecutor.code_executor Scenario.host
    "COBOL" "DISPLAY 'hi'." None Scenario.idle
  = (Os.Return
       [ ("success", VBool false);
         ("output", VStr "");
         ("error", VStr "Language 'cobol' is not supported. Supported languages: python, javascript, typescript, java, cpp, c, go, rust, php, ruby, shell, powershell");
         ("execution_time", VInt 0);
         ("memory_usage", VInt 0) ],
     Scenario.idle).
Proof.
  exact (run_code_unsupported_language CodeExecutor.code_executor Scenario.host
           "COBOL" "DISPLAY 'hi'." None Scenario.idle eq_refl).
Defined.

(** C4 as first stated fails: the result for an unsupported language has
    no classification, and the tag occurs in none of its fields. *)
Lemma run_code_unsupported_without_classification :
  ∃ d,
    (CodeExecutor.run_code CodeExecutor.code_executor Scenario.host
       "cobol" "DISPLAY 'hi'." None Scenario.idle).1 = Os.Return d ∧
    Py.get "classification" d = None ∧
    Forall (λ field, field.2 ≠ VStr "unsupported_language") d.
Proof.
  eexists. split; [reflexivity|]. split; [reflexivity|].
  repeat constructor; simpl; discriminate.
Qed.

Lemma host_raises_only_Exception : Os.raises_only_Exception Scenario.host.
Proof.
  repeat split; intros; try discriminate.
  match goal with H : Os.child _ _ _ _ _ = _ |- _ => cbn [Os.child Scenario.host] in H end.
  repeat match goal with H : context [if ?b then _ else _] |- _ => destruct b end;
    discriminate.
Qed.

Lemma full_disk_raises_only_Exception : Os.raises_only_Exception Scenario.full_disk.
Proof.
  repeat split; intros; try discriminate.
  - match goal with H : Os.mkdtemp _ _ = _ |- _ => by injection H as <- end.
  - destruct host_raises_only_Exception as (_ & _ & _ & _ & Hchild & _).
    match goal with H : Os.child _ _ _ _ _ = _ |- _ => exact (Hchild _ _ _ _ _ H) end.
Qed.

(** C5, when the temporary directory cannot be created. *)
Lemma run_code_converts_exceptions_witness :
  ∃ d e,
    (CodeExecutor.run_code CodeExecutor.code_executor Scenario.full_disk
       "python" "print('hi')" None Scenario.idle).1 = Os.Return d ∧
    Py.get "success" d = Some (VBool false) ∧
    Os.mkdtemp Scenario.full_disk Scenario.idle = Os.Raise e ∧
    Py.get "error" d = Some (VStr ("Execution error: " +:+ Os.message e)).
Proof.
  destruct (run_code_converts_exceptions CodeExecutor.code_executor
              Scenario.full_disk "python" "print('hi')" None Scenario.idle
              full_disk_raises_only_Exception) as [_ H].
  destruct (H _ eq_refl) as (d & e & Hd & Hs & [[[Hmk|Hw] He]|[Hw _]]).
  - by exists d, e.
  - destruct Hw as (? & ? & ? & _). discriminate.
  - destruct Hw as (? & ? & _). discriminate.
Defined.

(** C5 as first stated fails: the result built from an engine exception
    has no classification, and the tag occurs in none of its fields. *)
Lemma run_code_internal_error_without_classification :
  ∃ d,
    (CodeExecutor.run_code CodeExecutor.code_executor Scenario.full_disk
       "python" "print('hi')" None Scenario.idle).1 = Os.Return d ∧
    Py.get "error" d
      = Some (VStr "Execution error: [Errno 28] No space left on device") ∧
    Py.get "classification" d = None ∧
    Forall (λ field, field.2 ≠ VStr "internal_error") d.
Proof.
  eexists. split; [reflexivity|]. split; [reflexivity|]. split; [reflexivity|].
  repeat constructor; simpl; discriminate.
Qed.

(** ** Output caps and the validator *)

Section OutputProps.
Import CodeExecutor.

Lemma length_append a b :
  String.length (a +:+ b) = (String.length a + String.length b)%nat.
Proof.
  induction a as [|x a IH]; [done|].
  change (S (String.length (a +:+ b)) = S (String.length a + String.length b)).
  by rewrite IH.
Qed.

Lemma length_substring_0 s : ∀ n,
  (n ≤ String.length s)%nat → String.length (String.substring 0 n s) = n.
Proof.
  induction s as [|c s IH]; intros [|n] Hn; simpl in *; try done; try lia.
  rewrite IH; lia.
Qed.

(** [s[:n]] has [n] characters when [s] has at least [n]. *)
Lemma len_slice_to n s : 0 ≤ n ≤ Py.len s → Py.len (Py.slice_to n s) = n.
Proof.
  intros Hn. unfold Py.slice_to.
  destruct (Z.leb_spec 0 n); [|lia].
  unfold Py.len in *. rewrite length_substring_0; lia.
Qed.

Lemma len_repeat_char c n : Py.len (Py.repeat_char c n) = Z.of_nat n.
Proof.
  unfold Py.len. f_equal. induction n as [|n IH]; simpl; [done|]. by rewrite IH.
Qed.

(** The result-building step (lines 125-138), which a call reaches only
    when [Popen] has returned: [stdout] is capped on its own, beyond
    [max_output_size] characters it becomes its first [max_output_size]
    characters followed by the stdout marker, whatever [stderr] and the
    return code are.  [stderr] is capped the same way, with its own marker,
    when the return code is not zero. *)
Theorem completed_caps_streams self out err returncode :
  let cap := max_output_size self in
  let r := completed self out err returncode in
  (Py.len out > cap →
     stdout r = Py.slice_to cap out +:+ newline +:+ "[Output truncated - too large]") ∧
  (Py.len out ≤ cap → stdout r = out) ∧
  (returncode ≠ 0 → Py.len err > cap →
     stderr r = Py.slice_to cap err +:+ newline +:+ "[Error output truncated - too large]") ∧
  (returncode ≠ 0 → Py.len err ≤ cap → stderr r = err) ∧
  (0 ≤ cap < Py.len out → Py.len (Py.slice_to cap out) = cap) ∧
  (0 ≤ cap < Py.len err → Py.len (Py.slice_to cap err) = cap).
Proof.
  intros cap r. subst r. unfold completed. fold cap. simpl.
  repeat split.
  - intros H. destruct (Z.gtb_spec (Py.len out) cap); [done|lia].
  - intros H. destruct (Z.gtb_spec (Py.len out) cap); [lia|done].
  - intros Hrc H. destruct (Z.eqb_spec returncode 0); [done|]. simpl.
    destruct (Z.gtb_spec (Py.len err) cap); [done|lia].
  - intros Hrc H. destruct (Z.eqb_spec returncode 0); [done|]. simpl.
    destruct (Z.gtb_spec (Py.len err) cap); [lia|done].
  - intros H. apply len_slice_to. lia.
  - intros H. apply len_slice_to. lia.
Qed.

Lemma completed_stderr_zero self out err : stderr (completed self out err 0) = "".
Proof. reflexivity. Qed.

(** In that step, a return code 0 gives an empty [stderr] field and
    [success = True], whatever was written to standard error; with any
    other return code the field is the capped standard error and [success]
    is [False]. *)
Theorem completed_stderr_only_on_failure self out err :
  stderr (completed self out err 0) = "" ∧
  success (completed self out err 0) = true ∧
  (∀ returncode, returncode ≠ 0 →
     success (completed self out err returncode) = false ∧
     stderr (completed self out err returncode)
     = if Py.len err >? max_output_size self
       then Py.slice_to (max_output_size self) err
            +:+ newline +:+ "[Error output truncated - too large]"
       else err) ∧
  (∀ env language returncode,
     Py.get "error" (executed env language (completed self out err returncode))
     = Some (VStr (stderr (completed self out err returncode)))).
Proof.
  split; [done|]. split; [done|]. split; [|done].
  intros returncode Hrc. unfold completed; simpl.
  by destruct (Z.eqb_spec returncode 0).
Qed.

Lemma lstrip_whitespace code :
  Forall (λ c, Py.isspace c = true) (list_ascii_of_string code) →
  Py.lstrip code = "".
Proof.
  induction code as [|c code IH]; simpl; [done|].
  intros [Hc Hrest]%Forall_cons. rewrite Hc. by apply IH.
Qed.

(** C9 (amended). Source text that is empty or made of whitespace only is
    rejected, for every language: [valid] is [False] and the [error] is the
    message ["Code cannot be empty"]. *)
Theorem validate_code_rejects_blank self language code :
  Forall (λ c, Py.isspace c = true) (list_ascii_of_string code) →
  validate_code self language code
  = [ ("valid", VBool false); ("error", VStr "Code cannot be empty") ].
Proof.
  intros Hblank. unfold validate_code, Py.strip.
  by rewrite lstrip_whitespace.
Qed.

End OutputProps.

(** The step for the executor of the service, on two streams one
    character over the cap and return code 1. *)
Lemma completed_caps_streams_witness :
  let long := Py.repeat_char "x" (Z.to_nat 1048577) in
  let r := CodeExecutor.completed CodeExecutor.code_executor long long 1 in
  CodeExecutor.stdout r
    = Py.slice_to 1048576 long +:+ CodeExecutor.newline +:+ "[Output truncated - too large]" ∧
  CodeExecutor.stderr r
    = Py.slice_to 1048576 long +:+ CodeExecutor.newline
      +:+ "[Error output truncated - too large]".
Proof.
  intros long r.
  assert (Py.len long > 1048576) as Hlong.
  { unfold long. rewrite len_repeat_char. lia. }
  destruct (completed_caps_streams CodeExecutor.code_executor long long 1)
    as (Hout & _ & Herr & _).
  split.
  - exact (Hout Hlong).
  - apply Herr; [lia|exact Hlong].
Defined.

(** In that step, standard error longer than the cap with return code 0
    comes back empty, not truncated. *)
Lemma completed_drops_long_stderr_on_success :
  let long := Py.repeat_char "x" (Z.to_nat 1048577) in
  Py.len long > CodeExecutor.max_output_size CodeExecutor.code_executor ∧
  CodeExecutor.stderr (CodeExecutor.completed CodeExecutor.code_executor "" long 0) = "" ∧
  CodeExecutor.stderr (CodeExecutor.completed CodeExecutor.code_executor "" long 0)
    ≠ Py.slice_to 1048576 long +:+ CodeExecutor.newline
      +:+ "[Error output truncated - too large]".
Proof.
  intros long. split; [|split].
  - unfold long. rewrite len_repeat_char.
    change (CodeExecutor.max_output_size CodeExecutor.code_executor) with 1048576.
    lia.
  - exact (completed_stderr_zero CodeExecutor.code_executor "" long).
  - rewrite (completed_stderr_zero CodeExecutor.code_executor "" long).
    intros H. apply (f_equal String.length) in H.
    rewrite !length_append in H.
    change (String.length "") with 0%nat in H.
    change (String.length "[Error output truncated - too large]") with 36%nat in H.
    lia.
Qed.

(** C9, for a line of blanks. *)
Lemma validate_code_rejects_blank_witness :
  CodeExecutor.validate_code CodeExecutor.code_executor "python"
    (String " " (String "009" (String "010" "")))
  = [ ("valid", VBool false); ("error", VStr "Code cannot be empty") ].
Proof.
  apply validate_code_rejects_blank.
  repeat constructor.
Defined.

(** C9 as first stated fails: the result for empty source has no [reason];
    its message is not the tag, which occurs in none of its fields. *)
Lemma validate_code_blank_without_reason :
  Py.get "reason" (CodeExecutor.validate_code CodeExecutor.code_executor "python" "") = None ∧
  Py.get "error" (CodeExecutor.validate_code CodeExecutor.code_executor "python" "")
    = Some (VStr "Code cannot be empty") ∧
  Forall (λ field, field.2 ≠ VStr "empty_code")
    (CodeExecutor.validate_code CodeExecutor.code_executor "python" "").
Proof.
  split; [reflexivity|]. split; [reflexivity|].
  repeat constructor; simpl; discriminate.
Qed.

(** ** The [/execute] handler of api/code.py *)

Section CodeApiProps.
Import Os CodeApi.

Lemma keeps_ret {A} path (a : A) : keeps path (ret a).
Proof. by intros w Hw. Qed.

Lemma keeps_raise {A} path e : keeps path (raise (A := A) e).
Proof. by intros w Hw. Qed.

Lemma keeps_bind {A B} path (m : M A) (k : A → M B) :
  keeps path m → (∀ a, keeps path (k a)) → keeps path (x <- m ;; k x).
Proof.
  intros Hm Hk w Hw. unfold bind. specialize (Hm w Hw).
  destruct (m w) as [[a|e] w']; [by apply Hk|done].
Qed.

Lemma keeps_try_except {A} path (body : M A) handler :
  keeps path body → (∀ e, keeps path (handler e)) →
  keeps path (try_except body handler).
Proof.
  intros Hb Hh w Hw. unfold try_except. specialize (Hb w Hw).
  destruct (body w) as [[a|e] w']; [done|by apply Hh].
Qed.

Lemma keeps_add_file path p n w :
  is_Some (files w !! path) → is_Some (files (add_file p n w) !! path).
Proof.
  intros Hw. simpl. destruct (decide (p = path)) as [->|Hne].
  - by rewrite lookup_insert_eq.
  - by rewrite lookup_insert_ne.
Qed.

Lemma keeps_write_text env path p text : keeps path (write_text env p text).
Proof.
  intros w Hw. unfold write_text.
  destruct (write_error env w p text) as [[e [|]]|]; simpl; try done;
    by apply (keeps_add_file path p _ w).
Qed.

Lemma keeps_makedirs env path p : keeps path (makedirs env p).
Proof.
  intros w Hw. unfold makedirs.
  destruct (mkdir_error env w p); [done|]. by apply keeps_add_file.
Qed.

Lemma keeps_Popen env path command kwargs cwd :
  keeps path (Popen env command kwargs cwd).
Proof.
  intros w Hw. unfold Popen.
  destruct (List.find _ kwargs); [done|].
  by destruct (spawn_error env w command).
Qed.

Lemma keeps_communicate env path p input timeout :
  keeps path (communicate env p input timeout).
Proof.
  intros w [n Hn]. unfold communicate.
  assert (is_Some ((child_files env w (Os.args p) input ∪ files w) !! path)) as H.
  { rewrite lookup_union.
    destruct (child_files env w (Os.args p) input !! path); rewrite Hn; by eexists. }
  by destruct (child env w (Os.args p) input timeout).
Qed.

Lemma keeps_subprocess_run env path command input timeout cwd :
  keeps path (subprocess_run env command input timeout cwd).
Proof.
  unfold subprocess_run.
  apply keeps_bind; [apply keeps_Popen|]. intros process.
  apply keeps_bind; [apply keeps_communicate|]. intros [[out err] rc].
  apply keeps_ret.
Qed.

Lemma keeps_execute_language env request lang_info clean_code temp_file_path path :
  keeps path (execute_language env request lang_info clean_code temp_file_path).
Proof.
  unfold execute_language.
  repeat match goal with
         | |- keeps _ (if ?b then _ else _) => destruct b
         | |- keeps _ (Os.bind _ _) => apply keeps_bind; [|intros ?]
         | |- keeps _ (subprocess_run _ _ _ _ _) => apply keeps_subprocess_run
         | |- keeps _ (write_text _ _ _) => apply keeps_write_text
         | |- keeps _ (makedirs _ _) => apply keeps_makedirs
         | |- keeps _ (ret _) => apply keeps_ret
         end.
Qed.

Lemma after_bind {A B} path (m : M A) (k : A → M B) w :
  is_Some (files (m w).2 !! path) → (∀ a, keeps path (k a)) →
  is_Some (files ((x <- m ;; k x) w).2 !! path).
Proof.
  intros Hm Hk. unfold bind.
  destruct (m w) as [[a|e] w']; [by apply Hk|done].
Qed.

Lemma after_try_except {A} path (body : M A) handler w :
  is_Some (files (body w).2 !! path) → (∀ e, keeps path (handler e)) →
  is_Some (files (try_except body handler w).2 !! path).
Proof.
  intros Hb Hh. unfold try_except.
  destruct (body w) as [[a|e] w']; [done|by apply Hh].
Qed.

(** C6, on the handler of api/code.py: the file made by
    [NamedTemporaryFile(delete=False)] is still on disk when
    [execute_code] ends, whether it returns a response or raises. *)
Theorem execute_code_leaves_temporary_file env request w lang_info path :
  Py.get (language request) languages = Some lang_info →
  mkstemp env w (extension lang_info) (gettempdir env) = Return path →
  is_Some (files (execute_code env request w).2 !! path).
Proof.
  intros Hlang Hmk. unfold execute_code. rewrite Hlang.
  apply after_try_except.
  - apply after_bind.
    + unfold NamedTemporaryFile. rewrite Hmk.
      assert (is_Some (files (add_file path (File "") w) !! path)) as Hcreated.
      { simpl. rewrite lookup_insert_eq. by eexists. }
      destruct (write_error env _ path _) as [[e created]|]; [done|].
      by apply keeps_add_file.
    + intros temp_file_path. apply keeps_try_except.
      * apply keeps_execute_language.
      * intros e. destruct (is_TimeoutExpired e); [apply keeps_ret|].
        destruct (is_Exception e); [apply keeps_ret|apply keeps_raise].
  - intros e. destruct (is_Exception e); apply keeps_raise.
Qed.

(** [subprocess.run] of a command that starts and ends within the
    timeout. *)
Lemma subprocess_run_exited env command input timeout cwd w out err returncode :
  spawn_error env w command = None →
  child env (started command w) command input timeout = Exited out err returncode →
  subprocess_run env command input timeout cwd w
  = (Return (returncode, out, err),
     {| files := child_files env (started command w) command input
                 ∪ files (started command w);
        spawned := spawned (started command w) |}).
Proof.
  intros Hspawn Hchild. unfold subprocess_run, bind.
  change (Popen env command ["stdin"; "stdout"; "stderr"; "text"; "cwd"] cwd w)
    with (match spawn_error env w command with
          | Some e => (Raise e, w)
          | None => (Return {| Os.args := command; Os.cwd := cwd |}, started command w)
          end).
  rewrite Hspawn. unfold communicate. cbn [Os.args]. by rewrite Hchild.
Qed.

(** C3 (amended). When the compiler of a C++, C, Rust or Java program
    ends with a nonzero return code, [execute_code] returns a response with
    empty output, the error ["Compilation error:"] followed on the next line
    by the compiler's standard error, and the compiler's return code as
    exit code; the compiler is the only child started, so the run step is
    never executed. *)
Theorem execute_code_compile_error env request w lang_info path compiler
    out err returncode :
  Py.get (language request) languages = Some lang_info →
  (existsb (String.eqb (language request)) ["cpp"; "c"; "rust"] = true ∧
     compiler = ([command lang_info] ++ CodeApi.args lang_info ++ [path])%list
   ∨ language request = "java" ∧ compiler = ["javac"; path]) →
  mkstemp env w (extension lang_info) (gettempdir env) = Return path →
  write_error env (add_file path (File "") w) path
    (clean_markdown (code request)) = None →
  spawn_error env
    (add_file path (File (clean_markdown (code request)))
       (add_file path (File "") w)) compiler = None →
  child env
    (started compiler
       (add_file path (File (clean_markdown (code request)))
          (add_file path (File "") w)))
    compiler None (timeout request) = Exited out err returncode →
  returncode ≠ 0 →
  ∃ response,
    (execute_code env request w).1 = Return response ∧
    output response = "" ∧
    error response = Some ("Compilation error:" +:+ String "010" err) ∧
    exit_code response = Some returncode ∧
    spawned (execute_code env request w).2 = (spawned w ++ [compiler])%list.
Proof.
  intros Hlang Hcompiled Hmk Hwrite Hspawn Hchild Hrc.
  exists (compile_error_response env (returncode, out, err)).
  assert (negb (returncode =? 0) = true) as Hneg
    by (by destruct (Z.eqb_spec returncode 0)).
  pose proof (subprocess_run_exited env compiler None (timeout request) "." _
                out err returncode Hspawn Hchild) as Hrun.
  assert (∃ w', execute_language env request lang_info
                  (clean_markdown (code request)) path
                  (add_file path (File (clean_markdown (code request)))
                     (add_file path (File "") w))
                = (Return (compile_error_response env (returncode, out, err)), w')
                ∧ spawned w' = (spawned w ++ [compiler])%list) as (w' & Hexec & Hlog).
  { unfold execute_language.
    destruct Hcompiled as [[Hnative ->]|[Hjava ->]]; eexists.
    - rewrite Hnative. unfold bind at 1. rewrite Hrun. cbn [fst].
      rewrite Hneg. split; reflexivity.
    - rewrite Hjava.
      change (existsb (String.eqb "java") ["cpp"; "c"; "rust"]) with false.
      change (String.eqb "java" "java") with true. cbv iota.
      unfold bind at 1. rewrite Hrun. cbn [fst].
      rewrite Hneg. split; reflexivity. }
  unfold execute_code. rewrite Hlang.
  unfold try_except, bind, NamedTemporaryFile. rewrite Hmk, Hwrite, Hexec.
  by repeat split.
Qed.

End CodeApiProps.

(** C3, for a C++ program the compiler rejects. *)
Lemma execute_code_compile_error_witness :
  ∃ response,
    (CodeApi.execute_code Scenario.host Scenario.cpp_broken Scenario.idle).1
      = Os.Return response ∧
    CodeApi.output response = "" ∧
    CodeApi.error response
      = Some ("Compilation error:" +:+ String "010"
                "/tmp/tmpa8c1f0e2.cpp:1:12: error: expected '}' at end of input") ∧
    CodeApi.exit_code response = Some 1 ∧
    Os.spawned (CodeApi.execute_code Scenario.host Scenario.cpp_broken Scenario.idle).2
      = [ ["g++"; "-o"; "program"; "-std=c++17"; "/tmp/tmpa8c1f0e2.cpp"] ].
Proof.
  eapply (execute_code_compile_error Scenario.host Scenario.cpp_broken Scenario.idle
            _ "/tmp/tmpa8c1f0e2.cpp" _ "" _ 1).
  - reflexivity.
  - left. split; reflexivity.
  - reflexivity.
  - reflexivity.
  - reflexivity.
  - reflexivity.
  - discriminate.
Defined.

(** C3 as first stated fails: the response to a failed compilation has
    neither a success flag nor a classification, and the tag occurs in none
    of its fields. *)
Lemma execute_code_compile_error_without_classification :
  ∃ response,
    (CodeApi.execute_code Scenario.host Scenario.cpp_broken Scenario.idle).1
      = Os.Return response ∧
    Py.get "success" (CodeApi.model_dump response) = None ∧
    Py.get "classification" (CodeApi.model_dump response) = None ∧
    Forall (λ field, field.2 ≠ VStr "compile_error") (CodeApi.model_dump response).
Proof.
  eexists. split; [vm_compute; reflexivity|].
  split; [reflexivity|]. split; [reflexivity|].
  repeat constructor; simpl; discriminate.
Qed.

(** C6, for the one-line Python program of the scenario. *)
Lemma execute_code_leaves_temporary_file_witness :
  is_Some (Os.files (CodeApi.execute_code Scenario.host Scenario.python_hi Scenario.idle).2
             !! "/tmp/tmpa8c1f0e2.py").
Proof.
  eapply (execute_code_leaves_temporary_file Scenario.host Scenario.python_hi
            Scenario.idle); reflexivity.
Defined.

(** The handler runs the program of the scenario: the child prints [hi] and
    ends with code 0, and the source file is left in the temporary
    directory of the system. *)
Lemma execute_code_python_hi_on_host :
  ∃ w,
    CodeApi.execute_code Scenario.host Scenario.python_hi Scenario.idle
    = (Os.Return {| CodeApi.output := "hi" +:+ String "010" "";
                    CodeApi.error := None;
                    CodeApi.execution_time := Some 37;
                    CodeApi.memory_usage := Some 100;
                    CodeApi.cpu_usage := Some 500;
                    CodeApi.exit_code := Some 0 |}, w) ∧
    Os.files w !! "/tmp/tmpa8c1f0e2.py" = Some (Os.File "print('hi')") ∧
    Os.spawned w = [ ["python"; "/tmp/tmpa8c1f0e2.py"] ].
Proof.
  eexists. split; [vm_compute; reflexivity|]. split; vm_compute; reflexivity.
Qed.

(** The executor on the same machine and program: nothing is started and
    the result is a failure. *)
Lemma run_code_python_hi_on_host :
  CodeExecutor.run_code CodeExecutor.code_executor Scenario.host
    "python" "print('hi')" None Scenario.idle
  = (Os.Return
       [ ("success", VBool false);
         ("output", VStr "");
         ("error", VStr "Execution failed: Popen.__init__() got an unexpected keyword argument 'timeout'");
         ("execution_time", VMillis 37);
         ("memory_usage", VInt 0);
         ("language", VStr "python") ],
     Scenario.idle).
Proof. vm_compute. reflexivity. Qed.

(** * Further properties *)

(** ** Rate limiter: admission, bounds and the periodic sweep *)

Section RateLimiterMore.
Import RateLimiter.

Variable resolution : Z.

Lemma evict_idempotent cutoff (q : list Z) :
  evict cutoff (evict cutoff q) = evict cutoff q.
Proof.
  induction q as [|t q IH]; simpl; [done|].
  destruct (t <? cutoff) eqn:E; [done|]. simpl. by rewrite E.
Qed.

Lemma evict_evict c1 c2 (q : list Z) :
  c1 ≤ c2 → evict c2 (evict c1 q) = evict c2 q.
Proof.
  intros Hc. induction q as [|t q IH]; simpl; [done|].
  destruct (Z.ltb_spec t c1) as [H1|H1]; [|done].
  destruct (Z.ltb_spec t c2); [done|lia].
Qed.

Lemma window_of_nonneg limit_type :
  0 ≤ resolution → 0 ≤ window_of resolution limit_type ≤ 3600 * resolution.
Proof.
  intros Hres. unfold window_of.
  destruct (Py.contains "minute" limit_type); [lia|].
  destruct (Py.contains "hour" limit_type); lia.
Qed.

(** The first request of a key that has no timestamps on record is
    admitted, whatever the tier and the limit type, and its reading becomes
    the whole record. *)
Theorem is_allowed_fresh_key (self : t) now key limit_type user_type :
  record_of self (record_key key limit_type) = [] →
  is_allowed resolution self now key limit_type user_type
  = (true, {| requests := <[record_key key limit_type := [now]]> (requests self) |}).
Proof.
  intros Hfresh. unfold is_allowed. rewrite Hfresh. simpl.
  pose proof (limit_of_pos limit_type user_type).
  change (Z.of_nat 0) with 0.
  destruct (Z.geb_spec 0 (limit_of limit_type user_type)); [lia|done].
Qed.

Lemma is_allowed_length (self : t) now key limit_type user_type :
  let k := record_key key limit_type in
  Z.of_nat (length (record_of self k)) ≤ limit_of limit_type user_type →
  Z.of_nat (length (record_of
    (is_allowed resolution self now key limit_type user_type).2 k))
  ≤ limit_of limit_type user_type.
Proof.
  intros k Hlen. subst k.
  pose proof (evict_length (now - window_of resolution limit_type)
                (record_of self (record_key key limit_type))) as Hev.
  destruct (is_allowed_record resolution self now key limit_type user_type)
    as [(_ & _ & ->)|(_ & Hlt & ->)]; [lia|].
  rewrite length_app. simpl. lia.
Qed.

(** A record that holds no more timestamps than the ceiling never grows
    beyond it, however many calls follow and whenever they are made. *)
Theorem is_allowed_calls_within_limit key limit_type user_type times :
  ∀ self : t,
    Z.of_nat (length (record_of self (record_key key limit_type)))
      ≤ limit_of limit_type user_type →
    Z.of_nat (length (record_of
      (is_allowed_calls resolution self times key limit_type user_type).2
      (record_key key limit_type)))
    ≤ limit_of limit_type user_type.
Proof.
  induction times as [|now times IH]; intros self Hlen; simpl; [done|].
  pose proof (is_allowed_length self now key limit_type user_type Hlen) as Hstep.
  destruct (is_allowed resolution self now key limit_type user_type)
    as [verdict self1].
  specialize (IH self1 Hstep).
  by destruct (is_allowed_calls resolution self1 times key limit_type user_type).
Qed.

(** A call touches the record of its own key only. *)
Theorem is_allowed_other_records (self : t) now key limit_type user_type k' :
  k' ≠ record_key key limit_type →
  requests (is_allowed resolution self now key limit_type user_type).2 !! k'
  = requests self !! k'.
Proof.
  intros Hne. unfold is_allowed.
  destruct (_ >=? _); simpl; by rewrite lookup_insert_ne.
Qed.

(** [get_remaining_requests] read at the reading of the [is_allowed] call
    before it: the limiter is left as that call left it, the value is the
    ceiling less the timestamps on record (0 when there are more), and it
    is 0 after a denial. *)
Theorem get_remaining_after_is_allowed (self : t) now key limit_type user_type :
  0 ≤ resolution →
  let checked := is_allowed resolution self now key limit_type user_type in
  let remaining :=
    get_remaining_requests resolution checked.2 now key limit_type user_type in
  remaining.2 = checked.2 ∧
  remaining.1
  = Z.max 0 (limit_of limit_type user_type
             - Z.of_nat (length (record_of checked.2 (record_key key limit_type)))) ∧
  (checked.1 = false → remaining.1 = 0).
Proof.
  intros Hres checked remaining. subst remaining.
  pose proof (window_of_nonneg limit_type Hres) as Hw.
  pose proof (is_allowed_record resolution self now key limit_type user_type) as Hcall.
  fold checked in Hcall. simpl in Hcall.
  set (q := evict (now - window_of resolution limit_type)
              (record_of self (record_key key limit_type))) in *.
  assert (evict (now - window_of resolution limit_type)
            (record_of checked.2 (record_key key limit_type))
          = record_of checked.2 (record_key key limit_type)) as Hsame.
  { destruct Hcall as [(_ & _ & ->)|(_ & _ & ->)].
    - apply evict_idempotent.
    - rewrite evict_app by (repeat constructor; lia).
      unfold q. by rewrite evict_idempotent. }
  assert (requests checked.2 !! record_key key limit_type
          = Some (record_of checked.2 (record_key key limit_type))) as Hstored.
  { unfold checked, is_allowed, record_of.
    destruct (_ >=? _); simpl; by rewrite !lookup_insert_eq. }
  unfold get_remaining_requests. simpl. rewrite Hsame.
  split; [|split].
  - destruct checked.2 as [m]. simpl in *. f_equal. by apply insert_id.
  - done.
  - intros Hdenied.
    destruct Hcall as [(_ & Hge & Hrec)|(Habs & _)]; [|congruence].
    rewrite Hrec. lia.
Qed.

Lemma cleanup_pass_lookup (self : t) now k :
  requests (cleanup_pass resolution self now).2 !! k
  = match evict (now - 3600 * resolution) <$> requests self !! k with
    | Some [] => None
    | o => o
    end.
Proof.
  unfold cleanup_pass. simpl.
  set (swept := evict (now - 3600 * resolution) <$> requests self).
  assert (swept !! k = evict (now - 3600 * resolution) <$> requests self !! k)
    as <- by apply lookup_fmap.
  destruct (swept !! k) as [q|] eqn:Hk.
  - destruct (decide (q = [])) as [->|Hq].
    + apply lookup_foldr_delete. apply list_elem_of_fmap.
      exists (k, []). split; [done|].
      apply list_elem_of_filter. split; [done|]. by apply elem_of_map_to_list.
    + rewrite lookup_foldr_delete_not_elem_of.
      * rewrite Hk. by destruct q.
      * intros ([k0 q0] & -> & [Hq0 Hin]%list_elem_of_filter)%list_elem_of_fmap.
        apply elem_of_map_to_list in Hin. simpl in *. congruence.
  - rewrite lookup_foldr_delete_not_elem_of; [done|].
    intros ([k0 q0] & -> & [Hq0 Hin]%list_elem_of_filter)%list_elem_of_fmap.
    apply elem_of_map_to_list in Hin. simpl in *. congruence.
Qed.

Lemma cleanup_pass_record_of (self : t) now k :
  record_of (cleanup_pass resolution self now).2 k
  = evict (now - 3600 * resolution) (record_of self k).
Proof.
  unfold record_of. rewrite cleanup_pass_lookup.
  destruct (requests self !! k) as [q|]; simpl; [|done].
  by destruct (evict _ q).
Qed.

(** The sweep evicts from every record the timestamps older than one hour
    and stores no empty record afterwards. *)
Theorem cleanup_pass_records (self : t) now :
  (∀ k, record_of (cleanup_pass resolution self now).2 k
        = evict (now - 3600 * resolution) (record_of self k)) ∧
  (∀ k, requests (cleanup_pass resolution self now).2 !! k ≠ Some []).
Proof.
  split; intros k.
  - apply cleanup_pass_record_of.
  - rewrite cleanup_pass_lookup.
    destruct (requests self !! k) as [q|]; simpl; [|done].
    by destruct (evict _ q).
Qed.

(** The sweep does not change what a later call decides or records for
    its key. *)
Theorem cleanup_pass_invisible (self : t) now later key limit_type user_type :
  0 ≤ resolution → now ≤ later →
  let swept := (cleanup_pass resolution self now).2 in
  (is_allowed resolution swept later key limit_type user_type).1
  = (is_allowed resolution self later key limit_type user_type).1 ∧
  record_of (is_allowed resolution swept later key limit_type user_type).2
    (record_key key limit_type)
  = record_of (is_allowed resolution self later key limit_type user_type).2
      (record_key key limit_type) ∧
  (get_remaining_requests resolution swept later key limit_type user_type).1
  = (get_remaining_requests resolution self later key limit_type user_type).1.
Proof.
  intros Hres Hlater swept.
  pose proof (window_of_nonneg limit_type Hres) as Hw.
  assert (evict (later - window_of resolution limit_type)
            (record_of swept (record_key key limit_type))
          = evict (later - window_of resolution limit_type)
              (record_of self (record_key key limit_type))) as Hsame.
  { unfold swept. rewrite cleanup_pass_record_of.
    apply evict_evict. lia. }
  unfold is_allowed, get_remaining_requests. rewrite Hsame.
  split; [|split]; [| |done].
  - by destruct (_ >=? _).
  - unfold record_of. destruct (_ >=? _); simpl; by rewrite !lookup_insert_eq.
Qed.

End RateLimiterMore.

(** ** Performance monitor *)

Section PerformanceMonitorProps.
Import PerformanceMonitor.

(** A bounded deque fed from empty holds the most recent [maxlen] items. *)
Lemma deque_append_recent {A} maxlen (x : A) (l : list A) :
  deque_append maxlen x (drop (length l - maxlen) l)
  = drop (length (l ++ [x])%list - maxlen) (l ++ [x])%list.
Proof.
  unfold deque_append. rewrite !length_app, length_drop. simpl.
  destruct (decide (length l ≤ maxlen)%nat) as [Hle|Hgt].
  - replace (length l - maxlen)%nat with 0%nat by lia.
    rewrite drop_0. f_equal. lia.
  - replace (length l + 1 - maxlen)%nat with (S (length l - maxlen)) by lia.
    replace (length l - (length l - maxlen) + 1 - maxlen)%nat with 1%nat by lia.
    rewrite <- (drop_app_le l [x] (length l - maxlen)) by lia.
    rewrite drop_drop. f_equal. lia.
Qed.

Lemma length_deque_append {A} maxlen (x : A) (q : list A) :
  length (deque_append maxlen x q)
  = (length q + 1 - (length q + 1 - maxlen))%nat.
Proof. unfold deque_append. by rewrite length_drop, length_app. Qed.

Lemma omap_snoc {A B} (f : A → option B) (l : list A) (x : A) :
  omap f (l ++ [x])%list
  = (omap f l ++ match f x with Some y => [y] | None => [] end)%list.
Proof.
  rewrite omap_app. f_equal.
Qed.

(** Whatever is recorded, in whatever order, starting from a new monitor:
    the total counts the requests, the error count counts those with a
    status of 400 or more (so it never exceeds the total), the response
    times kept are those of the last 1000 requests, and the CPU figures
    kept are the last 100 read. *)
Theorem record_counts (events : list event) :
  let self := foldl record init events in
  requests_total self = Z.of_nat (length (request_times events)) ∧
  requests_errors self
    = Z.of_nat (length (filter (λ s, 400 ≤ s) (request_statuses events))) ∧
  0 ≤ requests_errors self ≤ requests_total self ∧
  response_times self
    = drop (length (request_times events) - 1000) (request_times events) ∧
  cpu_usage self
    = drop (length (cpu_readings events) - 100) (cpu_readings events) ∧
  length (memory_usage self) = length (cpu_usage self).
Proof.
  induction events as [|e events IH] using rev_ind.
  { repeat split; done. }
  rewrite foldl_snoc.
  destruct IH as (Htotal & Herrors & Hbound & Htimes & Hcpu & Hmem).
  unfold request_times, request_statuses, cpu_readings in *.
  rewrite !omap_snoc.
  destruct e as [response_time status_code|[[cpu_percent memory_percent]|]];
    cbn [record record_request record_system_metrics requests_total
         requests_errors response_times cpu_usage memory_usage];
    rewrite ?app_nil_r.
  - assert (length (omap (λ e, match e with Request _ s => Some s | _ => None end) events)
            = length (omap (λ e, match e with Request t _ => Some t | _ => None end) events))
      as Hsame.
    { clear. induction events as [|[]]; simpl; auto. }
    pose proof (length_filter (λ s, 400 ≤ s)
                  (omap (λ e, match e with Request _ s => Some s | _ => None end)
                     events)) as Hf.
    assert (requests_errors (foldl record init events)
            + (if status_code >=? 400 then 1 else 0)
            = Z.of_nat (length (filter (λ s, 400 ≤ s)
                (omap (λ e, match e with Request _ s => Some s | _ => None end) events
                 ++ [status_code])%list))) as Herr.
    { rewrite filter_app, length_app, Herrors.
      destruct (Z.geb_spec status_code 400).
      - rewrite (filter_cons_True _ status_code) by lia. simpl. lia.
      - rewrite (filter_cons_False _ status_code) by lia. simpl. lia. }
    split; [rewrite length_app; simpl; lia|].
    split; [rewrite <- Herr; destruct (status_code >=? 400); lia|].
    split; [destruct (status_code >=? 400); lia|].
    split; [by rewrite Htimes, deque_append_recent|].
    by split.
  - repeat (split; [done|]).
    split; [by rewrite Hcpu, deque_append_recent|].
    by rewrite !length_deque_append, Hmem.
  - done.
Qed.

End PerformanceMonitorProps.

(** ** Cache *)

Section CacheServiceProps.

Variable resolution : Z.
Context {V : Type}.

(** A value that was set is returned as long as the clock has not passed
    its expiry time, and reading it changes nothing. *)
Theorem cache_set_get (self : @CacheService.t V) t0 now key value ttl :
  now ≤ t0 + default (CacheService.default_ttl self) ttl * resolution →
  CacheService.get (CacheService.set resolution self t0 key value ttl) now key
  = (Some value, CacheService.set resolution self t0 key value ttl).
Proof.
  intros Hnow. unfold CacheService.get, CacheService.set. simpl.
  rewrite !lookup_insert_eq.
  destruct (Z.ltb_spec (t0 + default (CacheService.default_ttl self) ttl * resolution) now);
    [lia|done].
Qed.

(** Once the clock has passed the expiry time, reading the key gives
    nothing and removes the entry, value and expiry time alike. *)
Theorem cache_get_expired (self : @CacheService.t V) t0 now key value ttl :
  t0 + default (CacheService.default_ttl self) ttl * resolution < now →
  let r := CacheService.get (CacheService.set resolution self t0 key value ttl) now key in
  r.1 = None ∧
  CacheService.cache r.2 = delete key (CacheService.cache self) ∧
  CacheService.cache_ttl r.2 = delete key (CacheService.cache_ttl self) ∧
  (∀ later, (CacheService.get r.2 later key).1 = None).
Proof.
  intros Hnow r. subst r.
  assert (CacheService.get (CacheService.set resolution self t0 key value ttl) now key
          = (None, {| CacheService.cache := delete key (CacheService.cache self);
                      CacheService.cache_ttl := delete key (CacheService.cache_ttl self);
                      CacheService.default_ttl := CacheService.default_ttl self |}))
    as ->.
  { unfold CacheService.get, CacheService.set, CacheService.forget. simpl.
    rewrite !lookup_insert_eq.
    destruct (Z.ltb_spec
                (t0 + default (CacheService.default_ttl self) ttl * resolution) now);
      [|lia].
    by rewrite !delete_insert_eq. }
  simpl. repeat split.
  intros later. unfold CacheService.get. simpl. by rewrite lookup_delete_eq.
Qed.

(** Setting or deleting a key does not change what is read under another
    key. *)
Theorem cache_other_key (self : @CacheService.t V) t0 now key key' value ttl :
  key ≠ key' →
  (CacheService.get (CacheService.set resolution self t0 key value ttl) now key').1
  = (CacheService.get self now key').1 ∧
  (CacheService.get (CacheService.delete self key) now key').1
  = (CacheService.get self now key').1.
Proof.
  intros Hne. unfold CacheService.get, CacheService.set, CacheService.delete,
    CacheService.forget. simpl.
  rewrite !lookup_insert_ne, !lookup_delete_ne by done.
  split.
  - destruct (CacheService.cache self !! key'); [|done].
    destruct (CacheService.cache_ttl self !! key') as [expiry|]; [|done].
    by destruct (expiry <? now).
  - destruct (CacheService.cache self !! key'); [|done].
    destruct (CacheService.cache_ttl self !! key') as [expiry|]; [|done].
    by destruct (expiry <? now).
Qed.

Lemma consistent_forget (self : @CacheService.t V) key :
  CacheService.consistent self → CacheService.consistent (CacheService.forget key self).
Proof.
  intros Hc k. unfold CacheService.forget. simpl.
  destruct (decide (key = k)) as [->|Hne].
  - rewrite !lookup_delete_eq. split; intros []; done.
  - rewrite !lookup_delete_ne by done. apply Hc.
Qed.

Lemma delete_expired_spec expired_keys : ∀ self : @CacheService.t V,
  NoDup expired_keys →
  (∀ key, key ∈ expired_keys → is_Some (CacheService.cache self !! key)) →
  let r := CacheService.delete_expired expired_keys self in
  r.1 = true ∧
  (∀ key, CacheService.cache r.2 !! key
          = if decide (key ∈ expired_keys) then None else CacheService.cache self !! key) ∧
  (∀ key, CacheService.cache_ttl r.2 !! key
          = if decide (key ∈ expired_keys) then None
            else CacheService.cache_ttl self !! key).
Proof.
  induction expired_keys as [|k keys IH]; intros self Hnd Hin; simpl.
  - repeat split; intros key; rewrite decide_False; try done; apply not_elem_of_nil.
  - apply NoDup_cons in Hnd as [Hk Hnd].
    destruct (Hin k) as [v Hv]; [by left|]. rewrite Hv.
    destruct (IH (CacheService.forget k self) Hnd) as (Hdone & Hcache & Httl).
    { intros key Hkey. simpl. rewrite lookup_delete_ne by congruence.
      apply Hin. by right. }
    assert (∀ {A} (m : gmap string A) key,
              (if decide (key ∈ keys) then None else delete k m !! key)
              = if decide (key ∈ k :: keys) then None else m !! key) as Hstep.
    { intros A m key. destruct (decide (key = k)) as [->|Hne].
      - rewrite (decide_False (P := k ∈ keys)) by done.
        rewrite (decide_True (P := k ∈ k :: keys)) by (by left).
        apply lookup_delete_eq.
      - rewrite lookup_delete_ne by done.
        destruct (decide (key ∈ keys)) as [Hi|Hni].
        + rewrite decide_True; [done|by right].
        + rewrite decide_False; [done|].
          intros [?|?]%elem_of_cons; done. }
    split; [done|]. split; intros key.
    + rewrite Hcache. apply Hstep.
    + rewrite Httl. apply Hstep.
Qed.

Lemma cleanup_pass_spec (self : @CacheService.t V) now :
  CacheService.consistent self →
  let r := CacheService.cleanup_pass self now in
  r.1 = true ∧
  (∀ key, CacheService.cache r.2 !! key
          = match CacheService.cache_ttl self !! key with
            | Some expiry => if expiry <? now then None else CacheService.cache self !! key
            | None => CacheService.cache self !! key
            end) ∧
  (∀ key, CacheService.cache_ttl r.2 !! key
          = match CacheService.cache_ttl self !! key with
            | Some expiry => if expiry <? now then None else Some expiry
            | None => None
            end).
Proof.
  intros Hc r. subst r. unfold CacheService.cleanup_pass.
  set (expired_keys :=
         (filter (λ entry : string * Z, entry.2 < now)
            (map_to_list (CacheService.cache_ttl self))).*1).
  assert (∀ key, key ∈ expired_keys
                 ↔ ∃ expiry, CacheService.cache_ttl self !! key = Some expiry
                             ∧ expiry < now) as Hexp.
  { intros key. unfold expired_keys. rewrite list_elem_of_fmap. split.
    - intros ([k e] & -> & [He Hin]%list_elem_of_filter).
      apply elem_of_map_to_list in Hin. by exists e.
    - intros (e & He & Hlt). exists (key, e). split; [done|].
      apply list_elem_of_filter. split; [done|]. by apply elem_of_map_to_list. }
  destruct (delete_expired_spec expired_keys self) as (Hdone & Hcache & Httl).
  { unfold expired_keys. apply NoDup_fmap_fst.
    - intros k e1 e2 [_ H1%elem_of_map_to_list]%list_elem_of_filter
        [_ H2%elem_of_map_to_list]%list_elem_of_filter. congruence.
    - apply NoDup_filter, NoDup_map_to_list. }
  { intros key (e & He & _)%Hexp. apply Hc. by eexists. }
  split; [done|]. split; intros key.
  - rewrite Hcache. destruct (CacheService.cache_ttl self !! key) as [e|] eqn:He.
    + destruct (Z.ltb_spec e now).
      * rewrite decide_True; [done|]. apply Hexp. by exists e.
      * rewrite decide_False; [done|]. intros (e' & He' & Hlt)%Hexp.
        rewrite He in He'. injection He' as <-. lia.
    + rewrite decide_False; [done|]. intros (e' & He' & _)%Hexp. congruence.
  - rewrite Httl. destruct (CacheService.cache_ttl self !! key) as [e|] eqn:He.
    + destruct (Z.ltb_spec e now).
      * rewrite decide_True; [done|]. apply Hexp. by exists e.
      * rewrite decide_False; [done|]. intros (e' & He' & Hlt)%Hexp.
        rewrite He in He'. injection He' as <-. lia.
    + rewrite decide_False; [done|]. intros (e' & He' & _)%Hexp. congruence.
Qed.

Lemma consistent_set (self : @CacheService.t V) now key value ttl :
  CacheService.consistent self →
  CacheService.consistent (CacheService.set resolution self now key value ttl).
Proof.
  intros Hc k. unfold CacheService.set. simpl.
  destruct (decide (key = k)) as [->|Hne].
  - rewrite !lookup_insert_eq. split; intros _; by eexists.
  - rewrite !lookup_insert_ne by done. apply Hc.
Qed.

Lemma consistent_get (self : @CacheService.t V) now key :
  CacheService.consistent self →
  CacheService.consistent (CacheService.get self now key).2.
Proof.
  intros Hc. unfold CacheService.get.
  destruct (CacheService.cache self !! key); [|done].
  destruct (CacheService.cache_ttl self !! key) as [e|]; [|done].
  destruct (e <? now); [|done]. by apply consistent_forget.
Qed.

Lemma consistent_cleanup_pass (self : @CacheService.t V) now :
  CacheService.consistent self →
  CacheService.consistent (CacheService.cleanup_pass self now).2.
Proof.
  intros Hc k.
  destruct (cleanup_pass_spec self now Hc) as (_ & Hcache & Httl).
  rewrite Hcache, Httl.
  destruct (CacheService.cache_ttl self !! k) as [e|] eqn:He.
  - destruct (e <? now); [split; intros []; done|].
    split; intros _; [by eexists|]. apply Hc. by eexists.
  - split; [|intros []; done].
    intros Hk. apply Hc in Hk. rewrite He in Hk. by destruct Hk.
Qed.

(** A new cache is consistent (every cached key has an expiry time and
    conversely), and [set], [get], [delete], [clear] and the clean-up pass
    keep it so. *)
Theorem cache_consistent (self : @CacheService.t V) now key value ttl :
  CacheService.consistent (CacheService.init (V := V)) ∧
  (CacheService.consistent self →
   CacheService.consistent (CacheService.set resolution self now key value ttl) ∧
   CacheService.consistent (CacheService.get self now key).2 ∧
   CacheService.consistent (CacheService.delete self key) ∧
   CacheService.consistent (CacheService.clear self) ∧
   CacheService.consistent (CacheService.cleanup_pass self now).2).
Proof.
  split.
  { intros k. simpl. rewrite !lookup_empty. split; intros []; done. }
  intros Hc.
  split; [by apply consistent_set|].
  split; [by apply consistent_get|].
  split; [by apply consistent_forget|].
  split; [|by apply consistent_cleanup_pass].
  intros k. simpl. rewrite !lookup_empty. split; intros []; done.
Qed.

(** On a consistent cache the clean-up pass runs to its end, removes the
    entries whose expiry time has passed and no other, and no later read
    can tell that it ran. *)
Theorem cache_cleanup_pass (self : @CacheService.t V) now later key :
  CacheService.consistent self → now ≤ later →
  let r := CacheService.cleanup_pass self now in
  r.1 = true ∧
  (CacheService.cache r.2 !! key
   = match CacheService.cache_ttl self !! key with
     | Some expiry => if expiry <? now then None else CacheService.cache self !! key
     | None => CacheService.cache self !! key
     end) ∧
  (CacheService.get r.2 later key).1 = (CacheService.get self later key).1.
Proof.
  intros Hc Hlater r. subst r.
  destruct (cleanup_pass_spec self now Hc) as (Hdone & Hcache & Httl).
  split; [done|]. split; [apply Hcache|].
  unfold CacheService.get. rewrite Hcache, Httl.
  destruct (CacheService.cache_ttl self !! key) as [e|] eqn:He.
  - destruct (Z.ltb_spec e now) as [Hold|Hnew].
    + destruct (CacheService.cache self !! key); [|done].
      destruct (Z.ltb_spec e later); [done|lia].
    + destruct (CacheService.cache self !! key); [|done].
      by destruct (e <? later).
  - by destruct (CacheService.cache self !! key).
Qed.

End CacheServiceProps.

(** ** Letter case and the validator *)

Section ValidatorProps.
Import CodeExecutor.

Lemma lower_ascii_idempotent c : Py.lower_ascii (Py.lower_ascii c) = Py.lower_ascii c.
Proof. destruct c as [[] [] [] [] [] [] [] []]; reflexivity. Qed.

Lemma isspace_lower_ascii c : Py.isspace (Py.lower_ascii c) = Py.isspace c.
Proof. destruct c as [[] [] [] [] [] [] [] []]; reflexivity. Qed.

Lemma lower_idempotent s : Py.lower (Py.lower s) = Py.lower s.
Proof.
  induction s as [|c s IH]; simpl; [done|].
  by rewrite lower_ascii_idempotent, IH.
Qed.

Lemma lower_append a b : Py.lower (a +:+ b) = Py.lower a +:+ Py.lower b.
Proof.
  induction a as [|c a IH]; [done|].
  change (String (Py.lower_ascii c) (Py.lower (a +:+ b))
          = String (Py.lower_ascii c) (Py.lower a +:+ Py.lower b)).
  by rewrite IH.
Qed.

Lemma lstrip_lower s : Py.lstrip (Py.lower s) = Py.lower (Py.lstrip s).
Proof.
  induction s as [|c s IH]; simpl; [done|].
  rewrite isspace_lower_ascii. by destruct (Py.isspace c).
Qed.

Lemma rstrip_lower s : Py.rstrip (Py.lower s) = Py.lower (Py.rstrip s).
Proof.
  induction s as [|c s IH]; simpl; [done|].
  rewrite IH, isspace_lower_ascii.
  destruct (Py.rstrip s); simpl; [|done].
  by destruct (Py.isspace c).
Qed.

Lemma strip_lower s : Py.strip (Py.lower s) = Py.lower (Py.strip s).
Proof. unfold Py.strip. by rewrite lstrip_lower, rstrip_lower. Qed.

Lemma contains_prepend sub a s :
  Py.contains sub s = true → Py.contains sub (a +:+ s) = true.
Proof.
  intros Hs. induction a as [|c a IH]; [done|].
  change (String.prefix sub (String c (a +:+ s)) || Py.contains sub (a +:+ s) = true).
  rewrite IH. apply orb_true_r.
Qed.

Lemma contains_embedded sub a b : Py.contains sub (a +:+ sub +:+ b) = true.
Proof.
  apply contains_prepend.
  assert (∀ s, String.prefix sub s = true → Py.contains sub s = true) as Hprefix.
  { intros s Hs. destruct s; simpl in *; by rewrite Hs. }
  apply Hprefix, prefix_append.
Qed.

(** The validator does not look at letter case: a source text and its
    lower-case form get the same result, message included. *)
Theorem validate_code_ignores_case self language code :
  validate_code self language (Py.lower code) = validate_code self language code.
Proof.
  unfold validate_code. rewrite strip_lower, lower_idempotent.
  by destruct (Py.strip code).
Qed.

(** A denylisted pattern, written in any letter case, makes the validator
    reject every source text that contains it, whatever surrounds it. *)
Theorem validate_code_rejects_embedded self language pattern variant before after :
  In pattern dangerous_patterns →
  Py.lower variant = Py.lower pattern →
  Py.get "valid" (validate_code self language (before +:+ variant +:+ after))
  = Some (VBool false).
Proof.
  intros Hin Hvariant. unfold validate_code.
  destruct (String.eqb _ ""); [done|].
  destruct (List.find _ dangerous_patterns) as [found|] eqn:Hfind; [done|].
  pose proof (find_none _ _ Hfind pattern Hin) as Hnone. simpl in Hnone.
  rewrite !lower_append, Hvariant, contains_embedded in Hnone. done.
Qed.

(** The validator accepts exactly the source texts that are not blank and
    contain none of the denylisted patterns in any letter case. *)
Theorem validate_code_accepts_iff self language code :
  Py.get "valid" (validate_code self language code) = Some (VBool true)
  ↔ Py.strip code ≠ "" ∧
    Forall (λ pattern, Py.contains (Py.lower pattern) (Py.lower code) = false)
      dangerous_patterns.
Proof.
  unfold validate_code.
  destruct (String.eqb_spec (Py.strip code) "") as [Hblank|Hblank].
  { split; [done|]. by intros [? _]. }
  destruct (List.find _ dangerous_patterns) as [found|] eqn:Hfind.
  - split; [done|]. intros [_ Hall].
    apply find_some in Hfind as [Hin Hfound].
    rewrite Forall_forall in Hall. rewrite (Hall found) in Hfound; [done|].
    by apply list_elem_of_In.
  - split; [|done]. intros _. split; [done|].
    apply Forall_forall. intros pattern Hin%list_elem_of_In.
    exact (find_none _ _ Hfind pattern Hin).
Qed.

End ValidatorProps.

(** ** The executor on every input *)

Section ExecutorMore.
Import Os CodeExecutor.

(** Every outcome of [run_code]: one of its three dictionaries, or an
    exception that does not derive from [Exception]; no child is started. *)
Lemma run_code_cases self env language code stdin w :
  let out := run_code self env language code stdin w in
  spawned out.2 = spawned w ∧
  match out.1 with
  | Return d =>
      d = unsupported self (Py.lower language) ∨
      (∃ e, d = execution_error env (Py.lower language) e) ∨
      d = executed env (Py.lower language)
            (execution_failed (unexpected_keyword "timeout"))
  | Raise e => is_Exception e = false
  end.
Proof.
  intros out. subst out.
  destruct (Py.get (Py.lower language) (supported_languages self)) as [cfg|] eqn:Hcfg.
  - rewrite (run_code_supported _ _ _ _ _ _ cfg Hcfg).
    destruct (mkdtemp env w) as [temp_dir|e].
    + cbn zeta. destruct (write_error env _ _ code) as [[e [|]]|].
      * destruct (is_Exception e) eqn:E; (split; [done|]); [|done].
        right. left. by exists e.
      * destruct (is_Exception e) eqn:E; (split; [done|]); [|done].
        right. left. by exists e.
      * split; [done|]. by right; right.
    + destruct (is_Exception e) eqn:E; (split; [done|]); [|done].
      right. left. by exists e.
  - rewrite run_code_unsupported by (unfold Py.mem; by rewrite Hcfg).
    split; [done|]. by left.
Qed.

(** On a machine whose exceptions derive from [Exception], [run_code]
    returns. *)
Lemma run_code_converts_outcome self env language code stdin w :
  raises_only_Exception env →
  ∃ d, (run_code self env language code stdin w).1 = Return d.
Proof.
  intros (Hdir & _ & Hwrite & _).
  destruct (Py.get (Py.lower language) (supported_languages self)) as [cfg|] eqn:Hcfg.
  - rewrite (run_code_supported _ _ _ _ _ _ cfg Hcfg).
    destruct (mkdtemp env w) as [temp_dir|e] eqn:Hmk.
    + cbn zeta. destruct (write_error env _ _ code) as [[e created]|] eqn:Hw.
      * rewrite (Hwrite _ _ _ _ _ Hw). by eexists.
      * by eexists.
    + rewrite (Hdir _ _ Hmk). by eexists.
  - rewrite run_code_unsupported by (unfold Py.mem; by rewrite Hcfg). by eexists.
Qed.

(** [run_code] never reports success and never starts a child, for any
    executor, machine, language, source text and input: it returns a
    dictionary with [success = False] and empty output, or lets through an
    exception that does not derive from [Exception]. *)
Theorem run_code_never_succeeds self env language code stdin w :
  let out := run_code self env language code stdin w in
  spawned out.2 = spawned w ∧
  match out.1 with
  | Return d => Py.get "success" d = Some (VBool false)
                ∧ Py.get "output" d = Some (VStr "")
  | Raise e => is_Exception e = false
  end.
Proof.
  intros out. subst out.
  destruct (run_code_cases self env language code stdin w) as [Hspawned Hcases].
  split; [done|].
  destruct (run_code self env language code stdin w).1 as [d|e]; [|done].
  destruct Hcases as [->|[[e ->]| ->]]; done.
Qed.

(** [run_code] reads the language name without regard to letter case. *)
Theorem run_code_language_case self env language code stdin :
  run_code self env (Py.lower language) code stdin
  = run_code self env language code stdin.
Proof. unfold run_code. by rewrite lower_idempotent. Qed.

(** For C++, C and Rust the executor of the service prepares one argument
    vector for one process: the compiler comes first, and the ["&&"] of the
    configured command stays in it as an argument of its own, followed by
    the output path; for C++ and C that path is also the argument of
    [-o]. *)
Theorem prepare_command_keeps_chain env language file_path temp_dir :
  In language ["cpp"; "c"; "rust"] →
  ∃ compiler arguments output_file,
    _prepare_command code_executor env language file_path temp_dir
    = Return (compiler :: arguments ++ ["&&"; output_file])%list ∧
    compiler = (if String.eqb language "cpp" then "g++"
                else if String.eqb language "c" then "gcc" else "rustc") ∧
    arguments = ((if String.eqb language "rust" then [] else ["-o"; output_file])
                 ++ [Py.replace "{output}" output_file file_path])%list.
Proof.
  assert (∀ text, text +:+ "" = text) as Hnil.
  { intros text. induction text as [|c text IH]; [done|].
    change (String c (text +:+ "") = String c text). by rewrite IH. }
  assert (∀ out, Py.replace "{output}" out (Py.replace "{file}" file_path "{output}") = out)
    as Hout by (intros out; apply Hnil).
  assert (Py.replace "{file}" file_path "{file}" = file_path) as Hfile by apply Hnil.
  set (output_file := if String.eqb (os_name env) "nt"
                      then with_suffix ".exe" (path_join temp_dir "output")
                      else path_join temp_dir "output").
  intros [<-|[<-|[<-|[]]]]; unfold _prepare_command; simpl;
    fold output_file; rewrite !Hout, Hfile.
  - by exists "g++", ["-o"; output_file; Py.replace "{output}" output_file file_path],
      output_file.
  - by exists "gcc", ["-o"; output_file; Py.replace "{output}" output_file file_path],
      output_file.
  - by exists "rustc", [Py.replace "{output}" output_file file_path], output_file.
Qed.

End ExecutorMore.

(** ** The [/run] handler: limiter, validator and executor together *)

Section EndpointProps.
Import Os AiCompiler.

Lemma get_remaining_after_denial (self : RateLimiter.t) now key limit_type user_type :
  (RateLimiter.is_allowed 1000 self now key limit_type user_type).1 = false →
  RateLimiter.get_remaining_requests 1000
    (RateLimiter.is_allowed 1000 self now key limit_type user_type).2
    now key limit_type user_type
  = (0, (RateLimiter.is_allowed 1000 self now key limit_type user_type).2).
Proof.
  intros Hdenied.
  destruct (is_allowed_record 1000 self now key limit_type user_type)
    as [(_ & Hge & Hrec)|(Habs & _)]; [|simpl in Habs; congruence].
  simpl in Hge, Hrec.
  assert (RateLimiter.requests
            (RateLimiter.is_allowed 1000 self now key limit_type user_type).2
          !! RateLimiter.record_key key limit_type
          = Some (RateLimiter.evict (now - RateLimiter.window_of 1000 limit_type)
                    (RateLimiter.record_of self (RateLimiter.record_key key limit_type))))
    as Hstored.
  { revert Hdenied. unfold RateLimiter.is_allowed.
    destruct (_ >=? _); simpl; intros Hdenied; [|discriminate].
    by rewrite lookup_insert_eq. }
  unfold RateLimiter.get_remaining_requests.
  rewrite Hrec, evict_idempotent. f_equal; [lia|].
  destruct (RateLimiter.is_allowed 1000 self now key limit_type user_type).2 as [m].
  simpl in *. f_equal. by apply insert_id.
Qed.

(** A request over the limit is answered with status 429 before the
    validator or the executor is reached: the world is untouched, and the
    monitor counts one more request and one more error.  When the two clock
    readings of the limiter coincide, the quota reported is 0. *)
Theorem run_code_endpoint_denied env clock request user s w :
  (admission clock user s).1 = false →
  let out := run_code_endpoint env clock request user s w in
  (∃ remaining,
     out.1.1 = Raise {| exc := HTTPException 429;
                        message := "429: Code execution rate limit exceeded. Remaining: "
                                   +:+ pretty remaining |} ∧
     (remaining_check clock = limit_check clock →
      remaining = 0 ∧ rate_limiter out.1.2 = (admission clock user s).2)) ∧
  out.2 = w ∧
  PerformanceMonitor.requests_total (performance_monitor out.1.2)
  = PerformanceMonitor.requests_total (performance_monitor s) + 1 ∧
  PerformanceMonitor.requests_errors (performance_monitor out.1.2)
  = PerformanceMonitor.requests_errors (performance_monitor s) + 1.
Proof.
  intros Hdenied out. subst out. unfold run_code_endpoint.
  pose proof (get_remaining_after_denial (rate_limiter s) (limit_check clock)
                (user_field user "anonymous") "code_executions_per_minute"
                (user_field user "default")) as Hsame.
  unfold admission in *.
  destruct (RateLimiter.is_allowed 1000 (rate_limiter s) (limit_check clock) _ _ _)
    as [allowed limiter]. simpl in Hdenied. subst allowed. cbn [negb].
  cbn [fst snd] in Hsame. specialize (Hsame eq_refl).
  destruct (RateLimiter.get_remaining_requests 1000 limiter (remaining_check clock) _ _ _)
    as [remaining limiter'] eqn:Hrem.
  split; [|by repeat split].
  exists remaining. split; [done|].
  intros Heq. rewrite Heq, Hsame in Hrem. by injection Hrem as <- <-.
Qed.

(** A request the validator rejects is answered with status 400 and the
    validator's message, without touching the world; it has used up a slot
    of the quota all the same (its reading is on the limiter's record), and
    the monitor counts it as an error. *)
Theorem run_code_endpoint_invalid env clock request user s w :
  (admission clock user s).1 = true →
  Py.get "valid" (validation request) = Some (VBool false) →
  let out := run_code_endpoint env clock request user s w in
  out.1.1 = Raise {| exc := HTTPException 400;
                     message := "400: Code validation failed: "
                                +:+ text_of (default VNone
                                               (Py.get "error" (validation request))) |} ∧
  out.2 = w ∧
  rate_limiter out.1.2 = (admission clock user s).2 ∧
  (∃ kept,
     RateLimiter.record_of (rate_limiter out.1.2)
       (RateLimiter.record_key (user_field user "anonymous") "code_executions_per_minute")
     = (kept ++ [limit_check clock])%list) ∧
  PerformanceMonitor.requests_errors (performance_monitor out.1.2)
  = PerformanceMonitor.requests_errors (performance_monitor s) + 1.
Proof.
  intros Hallowed Hinvalid out. subst out. unfold run_code_endpoint.
  pose proof (is_allowed_record 1000 (rate_limiter s) (limit_check clock)
                (user_field user "anonymous") "code_executions_per_minute"
                (user_field user "default")) as Hcall.
  unfold admission in *.
  destruct (RateLimiter.is_allowed 1000 (rate_limiter s) (limit_check clock) _ _ _)
    as [allowed limiter]. simpl in Hallowed, Hcall. subst allowed. cbn [negb].
  rewrite Hinvalid. cbn [default truthy negb].
  repeat split.
  destruct Hcall as [(? & _)|(_ & _ & Hrec)]; [done|]. by eexists.
Qed.

(** A request that passes the limiter and the validator is handed to the
    executor, on a machine whose exceptions derive from [Exception]: the
    handler returns the executor's dictionary with [executed_at] and
    [user_type] added, in which [success] is [False]; no child is started;
    the monitor counts the request with status 200, not as an error. *)
Theorem run_code_endpoint_executes env clock request user s w :
  raises_only_Exception env →
  (admission clock user s).1 = true →
  Py.get "valid" (validation request) = Some (VBool true) →
  let out := run_code_endpoint env clock request user s w in
  (∃ d, out.1.1 = Return d ∧
        Py.get "success" d = Some (VBool false) ∧
        Py.get "executed_at" d = Some (VMillis (executed_at clock)) ∧
        Py.get "user_type" d = Some (VStr (user_field user "default"))) ∧
  spawned out.2 = spawned w ∧
  rate_limiter out.1.2 = (admission clock user s).2 ∧
  PerformanceMonitor.requests_total (performance_monitor out.1.2)
  = PerformanceMonitor.requests_total (performance_monitor s) + 1 ∧
  PerformanceMonitor.requests_errors (performance_monitor out.1.2)
  = PerformanceMonitor.requests_errors (performance_monitor s).
Proof.
  intros Henv Hallowed Hvalid out. subst out. unfold run_code_endpoint.
  destruct (admission clock user s) as [allowed limiter].
  simpl in Hallowed. subst allowed. cbn [negb].
  rewrite Hvalid. cbn [default truthy negb].
  pose proof (run_code_cases CodeExecutor.code_executor env (language request)
                (code request) (stdin request) w) as [Hspawned Hcases].
  pose proof (run_code_converts_outcome CodeExecutor.code_executor env
                (language request) (code request) (stdin request) w Henv) as [d Hd].
  destruct (CodeExecutor.run_code CodeExecutor.code_executor env (language request)
              (code request) (stdin request) w) as [[d'|e] w'];
    simpl in Hd, Hcases, Hspawned; [|done].
  injection Hd as ->.
  split; [|by repeat split].
  eexists. split; [reflexivity|].
  destruct Hcases as [->|[[e ->]| ->]]; repeat split.
Qed.

End EndpointProps.

(** ** The [/execute] handler on its other paths *)

Section CodeApiMore.
Import Os CodeApi.

(** The handler once the source file is written: the outcome of the
    language branch, with the two inner handlers applied. *)
Lemma execute_code_after_tempfile env request w lang_info path :
  Py.get (language request) languages = Some lang_info →
  mkstemp env w (extension lang_info) (gettempdir env) = Return path →
  write_error env (add_file path (File "") w) path
    (clean_markdown (code request)) = None →
  execute_code env request w
  = match execute_language env request lang_info (clean_markdown (code request)) path
            (add_file path (File (clean_markdown (code request)))
               (add_file path (File "") w)) with
    | (Return response, w') => (Return response, w')
    | (Raise e, w') =>
        if is_TimeoutExpired e then
          (Return (failure_response env
                     ("Execution timeout after " +:+ timeout_text (timeout request)
                      +:+ " seconds")), w')
        else if is_Exception e then
          (Return (failure_response env ("Execution error: " +:+ message e)), w')
        else (Raise e, w')
    end.
Proof.
  intros Hlang Hmk Hwrite. unfold execute_code. rewrite Hlang.
  unfold try_except, bind, NamedTemporaryFile. rewrite Hmk, Hwrite.
  destruct (execute_language _ _ _ _ _ _) as [[response|e] w']; [done|].
  destruct (is_TimeoutExpired e); [done|].
  by destruct (is_Exception e) eqn:E; unfold raise, ret; rewrite ?E.
Qed.

Lemma subprocess_run_hung env command input timeout cwd w :
  spawn_error env w command = None →
  child env (started command w) command input timeout = Hung →
  ∃ w', subprocess_run env command input timeout cwd w
        = (Raise {| exc := TimeoutExpired; message := "" |}, w')
        ∧ spawned w' = (spawned w ++ [command])%list.
Proof.
  intros Hspawn Hchild. eexists. unfold subprocess_run, bind.
  change (Popen env command ["stdin"; "stdout"; "stderr"; "text"; "cwd"] cwd w)
    with (match spawn_error env w command with
          | Some e => (Raise e, w)
          | None => (Return {| Os.args := command; Os.cwd := cwd |}, started command w)
          end).
  rewrite Hspawn. unfold communicate. cbn [Os.args]. rewrite Hchild.
  split; reflexivity.
Qed.

Lemma interpreted_language request :
  existsb (String.eqb (language request)) ["cpp"; "c"; "rust"; "java"; "csharp"] = false →
  existsb (String.eqb (language request)) ["cpp"; "c"; "rust"] = false ∧
  String.eqb (language request) "java" = false ∧
  String.eqb (language request) "csharp" = false.
Proof.
  simpl. intros H.
  repeat match type of H with (_ || _) = false => apply orb_false_iff in H as [? H] end.
  repeat split; try done.
  by repeat (apply orb_false_iff; split).
Qed.

(** A language that is not in the handler's table is answered with
    status 500, not 400: the [HTTPException] raised for it is caught by the
    handler's own [except Exception] and wrapped.  Nothing is written or
    started.  The table is read with the name as given, so a name in
    capitals is not found. *)
Theorem execute_code_unsupported_is_500 env request w :
  Py.get (language request) languages = None →
  execute_code env request w
  = (Raise {| exc := HTTPException 500;
              message := "500: Code execution error: 400: Unsupported language: "
                         +:+ language request |}, w).
Proof.
  intros Hlang. unfold execute_code. by rewrite Hlang.
Qed.

(** For a language that is neither compiled nor C#, when the interpreter
    starts and ends by itself: it is the only child, started with the
    configured command, its arguments and the source file; the response
    carries its whole standard output, uncapped, its return code, and its
    standard error only if the return code is not zero. *)
Theorem execute_code_interpreted env request w lang_info path out err returncode :
  Py.get (language request) languages = Some lang_info →
  existsb (String.eqb (language request)) ["cpp"; "c"; "rust"; "java"; "csharp"] = false →
  mkstemp env w (extension lang_info) (gettempdir env) = Return path →
  write_error env (add_file path (File "") w) path
    (clean_markdown (code request)) = None →
  spawn_error env
    (add_file path (File (clean_markdown (code request))) (add_file path (File "") w))
    ([command lang_info] ++ CodeApi.args lang_info ++ [path])%list = None →
  child env
    (started ([command lang_info] ++ CodeApi.args lang_info ++ [path])%list
       (add_file path (File (clean_markdown (code request)))
          (add_file path (File "") w)))
    ([command lang_info] ++ CodeApi.args lang_info ++ [path])%list
    (input_data request) (timeout request) = Exited out err returncode →
  ∃ response,
    (execute_code env request w).1 = Return response ∧
    output response = out ∧
    error response = (if returncode =? 0 then None else Some err) ∧
    exit_code response = Some returncode ∧
    spawned (execute_code env request w).2
    = (spawned w ++ [([command lang_info] ++ CodeApi.args lang_info ++ [path])%list])%list.
Proof.
  intros Hlang (Hnative & Hjava & Hcsharp)%interpreted_language Hmk Hwrite Hspawn Hchild.
  pose proof (execute_code_after_tempfile env request w lang_info path
                Hlang Hmk Hwrite) as Hrun.
  unfold execute_language in Hrun. rewrite Hnative, Hjava, Hcsharp in Hrun.
  unfold bind in Hrun.
  rewrite (subprocess_run_exited env _ (input_data request) (timeout request) "." _
             out err returncode Hspawn Hchild) in Hrun.
  rewrite Hrun. eexists. split; [reflexivity|]. simpl.
  split; [done|]. split; [by destruct (returncode =? 0)|]. by split.
Qed.

(** When the interpreter does not end within the timeout, the response has
    empty output, exit code -1 and an error that names the timeout of the
    request. *)
Theorem execute_code_timeout env request w lang_info path :
  Py.get (language request) languages = Some lang_info →
  existsb (String.eqb (language request)) ["cpp"; "c"; "rust"; "java"; "csharp"] = false →
  mkstemp env w (extension lang_info) (gettempdir env) = Return path →
  write_error env (add_file path (File "") w) path
    (clean_markdown (code request)) = None →
  spawn_error env
    (add_file path (File (clean_markdown (code request))) (add_file path (File "") w))
    ([command lang_info] ++ CodeApi.args lang_info ++ [path])%list = None →
  child env
    (started ([command lang_info] ++ CodeApi.args lang_info ++ [path])%list
       (add_file path (File (clean_markdown (code request)))
          (add_file path (File "") w)))
    ([command lang_info] ++ CodeApi.args lang_info ++ [path])%list
    (input_data request) (timeout request) = Hung →
  ∃ response,
    (execute_code env request w).1 = Return response ∧
    output response = "" ∧
    error response = Some ("Execution timeout after " +:+ timeout_text (timeout request)
                           +:+ " seconds") ∧
    exit_code response = Some (-1).
Proof.
  intros Hlang (Hnative & Hjava & Hcsharp)%interpreted_language Hmk Hwrite Hspawn Hchild.
  pose proof (execute_code_after_tempfile env request w lang_info path
                Hlang Hmk Hwrite) as Hrun.
  unfold execute_language in Hrun. rewrite Hnative, Hjava, Hcsharp in Hrun.
  unfold bind in Hrun.
  destruct (subprocess_run_hung env _ (input_data request) (timeout request) "." _
              Hspawn Hchild) as (w' & Hhung & _).
  rewrite Hhung in Hrun.
  rewrite Hrun. eexists. split; [reflexivity|]. by repeat split.
Qed.

(** For C++, C and Rust, when the compiler ends with code 0 the handler
    starts [./program] with the input of the request, as a path relative to
    the server's working directory, and answers with what that child wrote
    and returned; these two are the only children. *)
Theorem execute_code_compiled_run env request w lang_info path compile_out compile_err
    out err returncode :
  let compiler := ([command lang_info] ++ CodeApi.args lang_info ++ [path])%list in
  let w1 := add_file path (File (clean_markdown (code request)))
              (add_file path (File "") w) in
  let w2 := {| files := child_files env (started compiler w1) compiler None ∪ files w1;
               spawned := (spawned w ++ [compiler])%list |} in
  Py.get (language request) languages = Some lang_info →
  existsb (String.eqb (language request)) ["cpp"; "c"; "rust"] = true →
  mkstemp env w (extension lang_info) (gettempdir env) = Return path →
  write_error env (add_file path (File "") w) path
    (clean_markdown (code request)) = None →
  spawn_error env w1 compiler = None →
  child env (started compiler w1) compiler None (timeout request)
  = Exited compile_out compile_err 0 →
  spawn_error env w2 ["./program"] = None →
  child env (started ["./program"] w2) ["./program"] (input_data request)
    (timeout request) = Exited out err returncode →
  ∃ response,
    (execute_code env request w).1 = Return response ∧
    output response = out ∧
    error response = (if returncode =? 0 then None else Some err) ∧
    exit_code response = Some returncode ∧
    spawned (execute_code env request w).2
    = (spawned w ++ [compiler; ["./program"]])%list.
Proof.
  intros compiler w1 w2 Hlang Hnative Hmk Hwrite Hspawn Hchild Hspawn2 Hchild2.
  pose proof (execute_code_after_tempfile env request w lang_info path
                Hlang Hmk Hwrite) as Hrun.
  unfold execute_language in Hrun. rewrite Hnative in Hrun.
  unfold bind at 1 in Hrun. fold w1 compiler in Hrun.
  rewrite (subprocess_run_exited env compiler None (timeout request) "." w1
             compile_out compile_err 0 Hspawn Hchild) in Hrun.
  cbn [fst Z.eqb negb] in Hrun. unfold bind in Hrun.
  change {| files := child_files env (started compiler w1) compiler None
                     ∪ files (started compiler w1);
            spawned := spawned (started compiler w1) |} with w2 in Hrun.
  rewrite (subprocess_run_exited env ["./program"] (input_data request)
             (timeout request) "." w2 out err returncode Hspawn2 Hchild2) in Hrun.
  rewrite Hrun. eexists. split; [reflexivity|]. simpl.
  split; [done|]. split; [by destruct (returncode =? 0)|]. split; [done|].
  by rewrite <- app_assoc.
Qed.

(** An exception that leaves the outer [try] of the handler and derives
    from [Exception] is an [HTTPException] with status 500. *)
Lemma execute_code_raises_500 env request w :
  match (execute_code env request w).1 with
  | Return response => True
  | Raise e =>
      is_Exception e = true →
      ∃ detail, e = {| exc := HTTPException 500;
                       message := "500: Code execution error: " +:+ detail |}
  end.
Proof.
  unfold execute_code, try_except.
  destruct (Py.get (language request) languages) as [lang_info|]; [|by eexists].
  unfold bind.
  destruct (NamedTemporaryFile env _ _ _ w) as [[path|e] w1].
  - destruct (execute_language _ _ _ _ _ _) as [[response|e] w2]; [done|].
    destruct (is_TimeoutExpired e); [done|].
    destruct (is_Exception e) eqn:E; [done|].
    unfold raise. cbn [fst]. rewrite E. cbn [fst]. congruence.
  - destruct (is_Exception e) eqn:E; [by eexists|].
    cbn [fst]. congruence.
Qed.

(** An exception that leaves the handler and derives from [Exception] is
    either the one a psutil reading raised before the [try], let through as
    it is, or an [HTTPException] with status 500; the handler returns a
    response only when those readings succeeded. *)
Theorem execute_code_raises_500_or_psutil env psutil_error request w :
  match (CodeApiEntry.execute_code env psutil_error request w).1 with
  | Return response => psutil_error = None
  | Raise e =>
      is_Exception e = true →
      psutil_error = Some e ∨
      ∃ detail, e = {| exc := HTTPException 500;
                       message := "500: Code execution error: " +:+ detail |}
  end.
Proof.
  unfold CodeApiEntry.execute_code.
  destruct psutil_error as [e|]; [by left|].
  pose proof (execute_code_raises_500 env request w) as H.
  destruct (execute_code env request w).1 as [response|e]; [done|].
  intros He. right. by apply H.
Qed.

Lemma strip_prefix_append p s : Py.strip_prefix p (p +:+ s) = Some s.
Proof.
  induction p as [|c p IH]; [by destruct s|].
  change (Py.strip_prefix (String c p) (String c (p +:+ s)) = Some s).
  simpl. by rewrite Ascii.eqb_refl.
Qed.

Lemma contains_backtick c s :
  Py.contains "`" (String c s) = false →
  Ascii.eqb "`" c = false ∧ Py.contains "`" s = false.
Proof.
  change (Py.contains "`" (String c s))
    with (String.prefix "`" (String c s) || Py.contains "`" s).
  intros [Hc Hs]%orb_false_iff. split; [|done].
  assert (String.prefix "`" (String c s) = Ascii.eqb "`" c) as <-; [|done].
  clear. destruct s; destruct c as [[] [] [] [] [] [] [] []]; reflexivity.
Qed.

Lemma prefix_fence_other c s :
  Ascii.eqb "`" c = false → String.prefix "```" (String c s) = false.
Proof.
  intros Hc.
  destruct c as [[] [] [] [] [] [] [] []];
    first [reflexivity | vm_compute in Hc; discriminate Hc].
Qed.

Lemma strip_prefix_fence_other c s :
  Ascii.eqb "`" c = false → Py.strip_prefix "```" (String c s) = None.
Proof.
  intros Hc.
  change (Py.strip_prefix "```" (String c s))
    with (if Ascii.eqb "`" c then Py.strip_prefix "``" s else None).
  by rewrite Hc.
Qed.

Lemma before_fence_body body after :
  Py.contains "`" body = false →
  Py.before_fence (body +:+ "```" +:+ after) = Some body.
Proof.
  induction body as [|c body IH]; intros Hbody.
  - change (Py.before_fence (String "`" (String "`" (String "`" after))) = Some "").
    by destruct after.
  - apply contains_backtick in Hbody as [Hc Hbody].
    change ((if String.prefix "```" (String c (body +:+ "```" +:+ after))
             then Some EmptyString
             else String c <$> Py.before_fence (body +:+ "```" +:+ after))
            = Some (String c body)).
    by rewrite (prefix_fence_other _ _ Hc), (IH Hbody).
Qed.

Lemma first_code_block_skips langs before rest block :
  Py.contains "`" before = false →
  Py.code_block_at langs rest = Some block →
  Py.first_code_block langs (before +:+ rest) = Some block.
Proof.
  intros Hbefore Hblock. induction before as [|c before IH].
  - change (Py.first_code_block langs rest = Some block).
    destruct rest as [|c rest].
    + change (match Py.code_block_at langs "" with
              | Some found => Some found
              | None => None
              end = Some block).
      by rewrite Hblock.
    + change (match Py.code_block_at langs (String c rest) with
              | Some found => Some found
              | None => Py.first_code_block langs rest
              end = Some block).
      by rewrite Hblock.
  - apply contains_backtick in Hbefore as [Hc Hbefore].
    change (match Py.code_block_at langs (String c (before +:+ rest)) with
            | Some found => Some found
            | None => Py.first_code_block langs (before +:+ rest)
            end = Some block).
    unfold Py.code_block_at at 1. rewrite (strip_prefix_fence_other _ _ Hc).
    by apply IH.
Qed.

Lemma code_block_at_fence lang rest :
  lang = "" ∨ In lang fence_languages →
  Py.code_block_at fence_languages ("```" +:+ lang +:+ String "010" rest)
  = Py.before_fence rest.
Proof.
  intros Hlang. unfold Py.code_block_at. rewrite strip_prefix_append.
  assert (omap (λ h, Py.strip_prefix h (lang +:+ String "010" rest))
            (map (λ l, l +:+ String "010" EmptyString) fence_languages
             ++ [String "010" EmptyString])%list
          = [rest]) as ->; [|done].
  unfold fence_languages in *. simpl in Hlang.
  destruct Hlang as [->|Hlang]; [vm_compute; reflexivity|].
  repeat (destruct Hlang as [<-|Hlang]; [vm_compute; reflexivity|]).
  done.
Qed.

(** A source text that wraps the program in a markdown fence, with one of
    the twelve language names or none after the opening backticks, is
    replaced by the stripped text between the fences; what stands before
    and after the block is dropped. *)
Theorem clean_markdown_unwraps_block before lang body after :
  lang = "" ∨ In lang fence_languages →
  Py.contains "`" before = false →
  Py.contains "`" body = false →
  clean_markdown
    (before +:+ "```" +:+ (lang +:+ String "010" (body +:+ "```" +:+ after)))
  = Py.strip body.
Proof.
  intros Hlang Hbefore Hbody. unfold clean_markdown.
  rewrite contains_embedded.
  rewrite (first_code_block_skips fence_languages before _ body Hbefore); [done|].
  rewrite (code_block_at_fence lang _ Hlang).
  by apply before_fence_body.
Qed.

End CodeApiMore.

(** ** What [_execute_with_limits] hands back *)

Section ExecutorStreams.
Import Os CodeExecutor.




End ExecutorStreams.

(** ** Instances *)



(** A fourth request of [u1] at reading 4000 leaves its record in order. *)
Lemma is_allowed_chronological_witness :
  Sorted Z.le
    (RateLimiter.record_of
       (RateLimiter.is_allowed 1 Cases.seen 4000 "u1" "requests_per_hour" "default").2
       "u1:requests_per_hour").
Proof.
  pose proof (is_allowed_chronological 1 Cases.seen 4000 "u1" "requests_per_hour"
                "default") as H.
  cbv zeta in H. destruct H as [H _].
  - vm_compute. repeat constructor; discriminate.
  - vm_compute. repeat constructor; discriminate.
  - exact H.
Defined.

(** After the run of the scenario the source file of the executor is gone. *)
Lemma run_code_removes_temporary_directory_witness :
  Os.files (CodeExecutor.run_code CodeExecutor.code_executor Scenario.host
              "python" "print('hi')" None Scenario.idle).2
    !! "/tmp/tmpq3v0k2xd/code.py" = None.
Proof.
  exact (run_code_removes_temporary_directory CodeExecutor.code_executor Scenario.host
           "python" "print('hi')" None Scenario.idle _
           "/tmp/tmpq3v0k2xd" "/tmp/tmpq3v0k2xd/code.py" eq_refl eq_refl).
Defined.

(** The first request of [alice] is admitted and recorded. *)
Lemma is_allowed_fresh_key_witness :
  RateLimiter.is_allowed 1000 RateLimiter.init 5000 "alice" "requests_per_hour" "admin"
  = (true, {| RateLimiter.requests := {[ "alice:requests_per_hour" := [5000] ]} |}).
Proof.
  exact (is_allowed_fresh_key 1000 RateLimiter.init 5000 "alice" "requests_per_hour"
           "admin" eq_refl).
Defined.

(** Eight calls in eight seconds on the demo tier: at most five on record. *)
Lemma is_allowed_calls_within_limit_witness :
  Z.of_nat (length (RateLimiter.record_of
    (RateLimiter.is_allowed_calls 1 RateLimiter.init [0; 1; 2; 3; 4; 5; 6; 7]
       "u1" "code_executions_per_minute" "demo").2
    "u1:code_executions_per_minute")) ≤ 5.
Proof.
  apply (is_allowed_calls_within_limit 1 "u1" "code_executions_per_minute" "demo"
           [0; 1; 2; 3; 4; 5; 6; 7] RateLimiter.init).
  vm_compute. discriminate.
Defined.

(** A request of [u2] leaves the record of [u1] alone. *)
Lemma is_allowed_other_records_witness :
  RateLimiter.requests
    (RateLimiter.is_allowed 1 Cases.seen 4000 "u2" "requests_per_hour" "default").2
    !! "u1:requests_per_hour"
  = RateLimiter.requests Cases.seen !! "u1:requests_per_hour".
Proof.
  apply (is_allowed_other_records 1 Cases.seen 4000 "u2" "requests_per_hour" "default").
  intros H. vm_compute in H. discriminate H.
Defined.

(** After the first of five executions, four remain. *)
Lemma get_remaining_after_is_allowed_witness :
  (RateLimiter.get_remaining_requests 1
     (RateLimiter.is_allowed 1 RateLimiter.init 0 "u1" "code_executions_per_minute"
        "demo").2
     0 "u1" "code_executions_per_minute" "demo").1 = 4.
Proof.
  pose proof (get_remaining_after_is_allowed 1 RateLimiter.init 0 "u1"
                "code_executions_per_minute" "demo") as H.
  cbv zeta in H. destruct H as (_ & H & _); [lia|]. exact H.
Defined.

(** A sweep at reading 4000 does not change the verdict given at 4000. *)
Lemma cleanup_pass_invisible_witness :
  (RateLimiter.is_allowed 1 (RateLimiter.cleanup_pass 1 Cases.seen 4000).2 4000
     "u1" "requests_per_hour" "default").1
  = (RateLimiter.is_allowed 1 Cases.seen 4000 "u1" "requests_per_hour" "default").1.
Proof.
  pose proof (cleanup_pass_invisible 1 Cases.seen 4000 4000 "u1" "requests_per_hour"
                "default") as H.
  cbv zeta in H. destruct H as (H & _); [lia|lia|]. exact H.
Defined.

(** A value set for 60 seconds is still read at the last of them. *)
Lemma cache_set_get_witness :
  CacheService.get (CacheService.set 1 CacheService.init 100 "k" 7 (Some 60)) 160 "k"
  = (Some 7, CacheService.set 1 CacheService.init 100 "k" 7 (Some 60)).
Proof.
  apply (cache_set_get 1 CacheService.init 100 160 "k" 7 (Some 60)).
  vm_compute. discriminate.
Defined.

(** With the default of 300 seconds, the value is gone at second 301. *)
Lemma cache_get_expired_witness :
  (CacheService.get (CacheService.set 1 CacheService.init 100 "k" 7 None) 401 "k").1
  = None.
Proof.
  pose proof (cache_get_expired 1 CacheService.init 100 401 "k" 7 None) as H.
  cbv zeta in H. destruct H as (H & _); [reflexivity|]. exact H.
Defined.

(** Deleting [b] does not change what is read under [a]. *)
Lemma cache_other_key_witness :
  (CacheService.get
     (CacheService.delete (CacheService.set 1 CacheService.init 100 "a" 7 None) "b")
     160 "a").1
  = (CacheService.get (CacheService.set 1 CacheService.init 100 "a" 7 None) 160 "a").1.
Proof.
  destruct (cache_other_key 1 (CacheService.set 1 CacheService.init 100 "a" 7 None)
              100 160 "b" "a" 8 None) as [_ H]; [discriminate|]. exact H.
Defined.

(** The pass at reading 20 removes an entry that expired at 10. *)
Lemma cache_cleanup_pass_witness :
  let self := CacheService.set 1 CacheService.init 0 "k" 7 (Some 10) in
  (CacheService.cleanup_pass self 20).1 = true ∧
  CacheService.cache (CacheService.cleanup_pass self 20).2 !! "k" = None.
Proof.
  intros self.
  pose proof (cache_cleanup_pass self 20 20 "k") as H.
  cbv zeta in H. destruct H as (Hdone & Hgone & _).
  - apply consistent_set. intros key. simpl. rewrite !lookup_empty.
    split; intros []; done.
  - lia.
  - split; [exact Hdone|exact Hgone].
Defined.

(** [IMPORT OS] in capitals, inside a line, is rejected. *)
Lemma validate_code_rejects_embedded_witness :
  Py.get "valid"
    (CodeExecutor.validate_code CodeExecutor.code_executor "python"
       ("x = 1; " +:+ "IMPORT OS" +:+ "; y = 2"))
  = Some (VBool false).
Proof.
  apply (validate_code_rejects_embedded CodeExecutor.code_executor "python"
           "import os" "IMPORT OS" "x = 1; " "; y = 2").
  - left. reflexivity.
  - reflexivity.
Defined.

(** The argument vector prepared for a C program on the host. *)
Lemma prepare_command_keeps_chain_witness :
  ∃ compiler arguments output_file,
    CodeExecutor._prepare_command CodeExecutor.code_executor Scenario.host
      "c" "/tmp/d/code.c" "/tmp/d"
    = Os.Return (compiler :: arguments ++ ["&&"; output_file])%list ∧
    compiler = "gcc" ∧
    arguments = ["-o"; output_file; Py.replace "{output}" output_file "/tmp/d/code.c"].
Proof.
  apply (prepare_command_keeps_chain Scenario.host "c" "/tmp/d/code.c" "/tmp/d").
  right. left. reflexivity.
Defined.

(** The sixth execution of [demo] within the minute is answered with 429. *)
Lemma run_code_endpoint_denied_witness :
  (AiCompiler.run_code_endpoint Scenario.host Cases.clock Cases.print_hi
     Cases.demo_user Cases.busy Scenario.idle).1.1
  = Os.Raise {| Os.exc := Os.HTTPException 429;
                Os.message := "429: Code execution rate limit exceeded. Remaining: 0" |}.
Proof.
  pose proof (run_code_endpoint_denied Scenario.host Cases.clock Cases.print_hi
                Cases.demo_user Cases.busy Scenario.idle) as H.
  cbv zeta in H. destruct H as ((remaining & Hout & Hzero) & _).
  - vm_compute. reflexivity.
  - destruct (Hzero eq_refl) as [-> _]. exact Hout.
Defined.

(** A program that imports [os] is answered with 400. *)
Lemma run_code_endpoint_invalid_witness :
  (AiCompiler.run_code_endpoint Scenario.host Cases.clock Cases.import_os
     Cases.demo_user Cases.fresh Scenario.idle).1.1
  = Os.Raise {| Os.exc := Os.HTTPException 400;
                Os.message := "400: Code validation failed: Potentially dangerous code detected: import os. Please remove it for security." |}.
Proof.
  pose proof (run_code_endpoint_invalid Scenario.host Cases.clock Cases.import_os
                Cases.demo_user Cases.fresh Scenario.idle) as H.
  cbv zeta in H. destruct H as (Hout & _).
  - vm_compute. reflexivity.
  - vm_compute. reflexivity.
  - exact Hout.
Defined.

(** The program of the scenario passes both checks and comes back failed. *)
Lemma run_code_endpoint_executes_witness :
  ∃ d,
    (AiCompiler.run_code_endpoint Scenario.host Cases.clock Cases.print_hi
       Cases.demo_user Cases.fresh Scenario.idle).1.1 = Os.Return d ∧
    Py.get "success" d = Some (VBool false) ∧
    Py.get "executed_at" d = Some (VMillis 10004) ∧
    Py.get "user_type" d = Some (VStr "demo").
Proof.
  pose proof (run_code_endpoint_executes Scenario.host Cases.clock Cases.print_hi
                Cases.demo_user Cases.fresh Scenario.idle) as H.
  cbv zeta in H. destruct H as (Hout & _).
  - exact host_raises_only_Exception.
  - vm_compute. reflexivity.
  - vm_compute. reflexivity.
  - exact Hout.
Defined.

(** [Python] in capitals is not in the table: status 500. *)
Lemma execute_code_unsupported_is_500_witness :
  CodeApi.execute_code Scenario.host Cases.capitals Scenario.idle
  = (Os.Raise {| Os.exc := Os.HTTPException 500;
                 Os.message := "500: Code execution error: 400: Unsupported language: Python" |},
     Scenario.idle).
Proof.
  exact (execute_code_unsupported_is_500 Scenario.host Cases.capitals Scenario.idle
           eq_refl).
Defined.

(** The program of the scenario, run by the handler on the host. *)
Lemma execute_code_interpreted_witness :
  ∃ response,
    (CodeApi.execute_code Scenario.host Scenario.python_hi Scenario.idle).1
      = Os.Return response ∧
    CodeApi.output response = "hi" +:+ String "010" "" ∧
    CodeApi.error response = None ∧
    CodeApi.exit_code response = Some 0 ∧
    Os.spawned (CodeApi.execute_code Scenario.host Scenario.python_hi Scenario.idle).2
      = [ ["python"; "/tmp/tmpa8c1f0e2.py"] ].
Proof.
  apply (execute_code_interpreted Scenario.host Scenario.python_hi Scenario.idle
           {| CodeApi.name := "Python"; CodeApi.extension := ".py";
               CodeApi.command := "python"; CodeApi.args := [] |}
           "/tmp/tmpa8c1f0e2.py" ("hi" +:+ String "010" "") "" 0); reflexivity.
Defined.

(** The program of the scenario on the machine whose children hang. *)
Lemma execute_code_timeout_witness :
  ∃ response,
    (CodeApi.execute_code Cases.stalled Scenario.python_hi Scenario.idle).1
      = Os.Return response ∧
    CodeApi.output response = "" ∧
    CodeApi.error response = Some "Execution timeout after 30 seconds" ∧
    CodeApi.exit_code response = Some (-1).
Proof.
  apply (execute_code_timeout Cases.stalled Scenario.python_hi Scenario.idle
           {| CodeApi.name := "Python"; CodeApi.extension := ".py";
               CodeApi.command := "python"; CodeApi.args := [] |}
           "/tmp/tmpa8c1f0e2.py"); reflexivity.
Defined.

(** A C program on the host: compiled, then run. *)
Lemma execute_code_compiled_run_witness :
  ∃ response,
    (CodeApi.execute_code Scenario.host Cases.c_program Scenario.idle).1
      = Os.Return response ∧
    CodeApi.output response = "" ∧
    CodeApi.error response = None ∧
    CodeApi.exit_code response = Some 0 ∧
    Os.spawned (CodeApi.execute_code Scenario.host Cases.c_program Scenario.idle).2
      = [ ["gcc"; "-o"; "program"; "-std=c99"; "/tmp/tmpa8c1f0e2.c"]; ["./program"] ].
Proof.
  apply (execute_code_compiled_run Scenario.host Cases.c_program Scenario.idle
           {| CodeApi.name := "C"; CodeApi.extension := ".c";
               CodeApi.command := "gcc";
               CodeApi.args := ["-o"; "program"; "-std=c99"] |}
           "/tmp/tmpa8c1f0e2.c" "" "" "" "" 0); reflexivity.
Defined.

(** The program is taken out of the fenced answer. *)
Lemma clean_markdown_unwraps_block_witness :
  CodeApi.clean_markdown Cases.fenced_answer = "print('hi')".
Proof.
  exact (clean_markdown_unwraps_block "Here is the program:" "python"
           ("print('hi')" +:+ String "010" "") " Run it."
           (or_intror (or_introl eq_refl)) eq_refl eq_refl).
Defined.
